(** * card.py: a playing card with a face-up / face-down visibility gate

    A shallow embedding of the classes [Card] and [SchopskopfCard] of
    card.py and the properties of their constructor, accessors, comparisons
    and string rendering.

    Conventions of the embedding.
    - A Python [str] is a [string] holding its UTF-8 bytes.  [Str.lower]
      and [Str.upper] follow Python's [str.lower] and [str.upper] on ASCII
      and on every other code point whose image contains an ASCII
      character (U+212A KELVIN SIGN lower-cases to ['k'], U+017F upper-cases
      to ['S'], ...); the remaining code points, whose images in Python are
      not ASCII either, are left as they are.  card.py only compares the
      results with the ASCII entries of its tables, so the constructor is
      followed on every argument.
    - A [dict] built by [dict(zip(keys, values))] is a [gmap]; a subscript
      on a missing key raises [KeyError].
    - Exceptions are values of [exn], named after the Python classes raised.
      [RuleError] is imported by card.py from the module [errors].
    - Card objects are mutable and are passed by reference: the instances
      live in a heap indexed by references, next to the two mutable class
      attributes [Card.useUnicode] and [Card.debugMode].  Methods run in a
      state-and-exception monad over that [world]. *)

From Stdlib Require Import ZArith Ascii String.
From stdpp Require Import base strings functions gmap list.

Local Open Scope Z_scope.

(** ** Python strings *)

Module Str.

Definition is_upper (c : ascii) : bool :=
  let n := nat_of_ascii c in (65 <=? n)%nat && (n <=? 90)%nat.

Definition is_lower (c : ascii) : bool :=
  let n := nat_of_ascii c in (97 <=? n)%nat && (n <=? 122)%nat.

Definition lower_char (c : ascii) : ascii :=
  if is_upper c then ascii_of_nat (nat_of_ascii c + 32) else c.

Definition upper_char (c : ascii) : ascii :=
  if is_lower c then ascii_of_nat (nat_of_ascii c - 32) else c.

(** The case mappings restricted to ASCII: every byte is mapped on its own,
    bytes above 127 stay. *)
Fixpoint ascii_lower (s : string) : string :=
  match s with
  | EmptyString => EmptyString
  | String c r => String (lower_char c) (ascii_lower r)
  end.

Fixpoint ascii_upper (s : string) : string :=
  match s with
  | EmptyString => EmptyString
  | String c r => String (upper_char c) (ascii_upper r)
  end.

Definition is_ascii_char (c : ascii) : bool := (N_of_ascii c <? 128)%N.

(** All code points of [s] are ASCII. *)
Fixpoint is_ascii (s : string) : bool :=
  match s with
  | EmptyString => true
  | String c r => is_ascii_char c && is_ascii r
  end.

(** The code points beyond ASCII whose lower-case form contains an ASCII
    character, by their UTF-8 bytes: U+0130 gives ['i'] and U+0307, U+212A
    gives ['k']. *)
Definition lower2 (c1 c2 : ascii) : option string :=
  match N_of_ascii c1, N_of_ascii c2 with
  | 196%N, 176%N => Some (String "i" (String "204" (String "135" EmptyString)))
  | _, _ => None
  end.

Definition lower3 (c1 c2 c3 : ascii) : option string :=
  match N_of_ascii c1, N_of_ascii c2, N_of_ascii c3 with
  | 226%N, 132%N, 170%N => Some "k"
  | _, _, _ => None
  end.

(** The code points beyond ASCII whose upper-case form contains an ASCII
    character: U+00DF gives ["SS"], U+0131 ['I'], U+0149 U+02BC and ['N'],
    U+017F ['S'], U+01F0 ['J'] and U+030C; U+1E96 to U+1E9A give ['H'],
    ['T'], ['W'], ['Y'], ['A'] with a combining mark, U+FB00 to U+FB06
    give ["FF"], ["FI"], ["FL"], ["FFI"], ["FFL"], ["ST"], ["ST"]. *)
Definition upper2 (c1 c2 : ascii) : option string :=
  match N_of_ascii c1, N_of_ascii c2 with
  | 195%N, 159%N => Some "SS"
  | 196%N, 177%N => Some "I"
  | 197%N, 137%N => Some (String "202" (String "188" (String "N" EmptyString)))
  | 197%N, 191%N => Some "S"
  | 199%N, 176%N => Some (String "J" (String "204" (String "140" EmptyString)))
  | _, _ => None
  end.

Definition upper3 (c1 c2 c3 : ascii) : option string :=
  match N_of_ascii c1, N_of_ascii c2, N_of_ascii c3 with
  | 225%N, 186%N, 150%N => Some (String "H" (String "204" (String "177" EmptyString)))
  | 225%N, 186%N, 151%N => Some (String "T" (String "204" (String "136" EmptyString)))
  | 225%N, 186%N, 152%N => Some (String "W" (String "204" (String "138" EmptyString)))
  | 225%N, 186%N, 153%N => Some (String "Y" (String "204" (String "138" EmptyString)))
  | 225%N, 186%N, 154%N => Some (String "A" (String "202" (String "190" EmptyString)))
  | 239%N, 172%N, 128%N => Some "FF"
  | 239%N, 172%N, 129%N => Some "FI"
  | 239%N, 172%N, 130%N => Some "FL"
  | 239%N, 172%N, 131%N => Some "FFI"
  | 239%N, 172%N, 132%N => Some "FFL"
  | 239%N, 172%N, 133%N => Some "ST"
  | 239%N, 172%N, 134%N => Some "ST"
  | _, _, _ => None
  end.

(** [s.lower()] *)
Fixpoint lower (s : string) : string :=
  match s with
  | EmptyString => EmptyString
  | String c1 r1 =>
      match r1 with
      | EmptyString => String (lower_char c1) EmptyString
      | String c2 r2 =>
          match lower2 c1 c2 with
          | Some out => out +:+ lower r2
          | None =>
              match r2 with
              | EmptyString => String (lower_char c1) (lower r1)
              | String c3 r3 =>
                  match lower3 c1 c2 c3 with
                  | Some out => out +:+ lower r3
                  | None => String (lower_char c1) (lower r1)
                  end
              end
          end
      end
  end.

(** [s.upper()] *)
Fixpoint upper (s : string) : string :=
  match s with
  | EmptyString => EmptyString
  | String c1 r1 =>
      match r1 with
      | EmptyString => String (upper_char c1) EmptyString
      | String c2 r2 =>
          match upper2 c1 c2 with
          | Some out => out +:+ upper r2
          | None =>
              match r2 with
              | EmptyString => String (upper_char c1) (upper r1)
              | String c3 r3 =>
                  match upper3 c1 c2 c3 with
                  | Some out => out +:+ upper r3
                  | None => String (upper_char c1) (upper r1)
                  end
              end
          end
      end
  end.

(** [s.capitalize()] for a string that starts with an ASCII character:
    that character in upper case, the rest in lower case. *)
Definition capitalize (s : string) : string :=
  match s with
  | EmptyString => EmptyString
  | String c r => String (upper_char c) (lower r)
  end.

(** U+212A KELVIN SIGN. *)
Definition kelvin : string :=
  String "226" (String "132" (String "170" EmptyString)).

End Str.

(** ** Exceptions and results *)

Inductive exn : Type :=
  | TypeError (msg : string)
  | ValueError (msg : string)
  | RuleError (msg : string)
  | KeyError (key : string)
  | IndexError (msg : string).

Definition result (A : Type) : Type := exn + A.

(** Sequencing of computations that may raise: [x <- c ;; k] runs [c],
    binds its value to [x] and goes on with [k]; an exception raised by [c]
    ends the computation. *)
Class Monad (T : Type -> Type) : Type := {
  ret : forall {A : Type}, A -> T A;
  bind : forall {A B : Type}, T A -> (A -> T B) -> T B
}.

Notation "x <- c ;; k" := (bind c (fun x => k))
  (at level 100, c at next level, right associativity).
Notation "c ;;; k" := (bind c (fun _ => k))
  (at level 100, right associativity).

#[global] Instance result_monad : Monad result := {|
  ret := fun A x => inr x;
  bind := fun A B m f =>
    match m with
    | inl e => inl e
    | inr x => f x
    end
|}.

(** [x in l] for a list [l] of strings. *)
Definition contains (x : string) (l : list string) : bool := bool_decide (x ∈ l).

(** [l.index(x)]: the first position of [x]; [ValueError] when absent, with
    [x] quoted as [repr] quotes a string free of quotes and escapes. *)
Fixpoint index_from (x : string) (l : list string) (i : nat) : option nat :=
  match l with
  | [] => None
  | y :: r => if bool_decide (y = x) then Some i else index_from x r (S i)
  end.

Definition index (l : list string) (x : string) : result nat :=
  match index_from x l 0 with
  | Some i => inr i
  | None => inl (ValueError ("'" +:+ x +:+ "' is not in list"))
  end.

(** [l[i]] for a non-negative position. *)
Definition getitem (l : list string) (i : nat) : result string :=
  match l !! i with
  | Some x => inr x
  | None => inl (IndexError "list index out of range")
  end.

(** [d[k]] *)
Definition subscript {V : Type} (d : gmap string V) (k : string) : result V :=
  match d !! k with
  | Some v => inr v
  | None => inl (KeyError k)
  end.

(** ** Objects, the heap and the class attributes *)

Inductive class : Type := cls_Card | cls_SchopskopfCard.

#[global] Instance class_eq_dec : EqDecision class.
Proof. solve_decision. Defined.

(** The attributes an instance holds once [__init__] has returned; [type]
    is the class the object was created from. *)
Record instance : Type := mk_instance {
  type : class;
  __name : string;
  __shortName : string;
  __suit : string;
  __isFacecard : bool;
  __isAce : bool;
  __isShowing : bool;
  __rank : Z;
  __hardValue : Z;
  __softValue : Z
}.

Definition set___isShowing (b : bool) (o : instance) : instance :=
  mk_instance (type o) (__name o) (__shortName o) (__suit o) (__isFacecard o)
    (__isAce o) b (__rank o) (__hardValue o) (__softValue o).

Definition set___suit (s : string) (o : instance) : instance :=
  mk_instance (type o) (__name o) (__shortName o) s (__isFacecard o)
    (__isAce o) (__isShowing o) (__rank o) (__hardValue o) (__softValue o).

Definition loc : Type := nat.

Record world : Type := mk_world {
  useUnicode : bool;
  debugMode : bool;
  heap : loc -> instance
}.

(** [w] with the object at [l] replaced by [o]. *)
Definition store (l : loc) (o : instance) (w : world) : world :=
  mk_world (useUnicode w) (debugMode w) (<[l := o]> (heap w)).

(** ** The monad of method bodies *)

Definition M (A : Type) : Type := world -> result A * world.

#[global] Instance M_monad : Monad M := {|
  ret := fun A x w => (inr x, w);
  bind := fun A B m f w =>
    match m w with
    | (inl e, w') => (inl e, w')
    | (inr x, w') => f x w'
    end
|}.

Definition raise {A : Type} (e : exn) : M A := fun w => (inl e, w).

(** Lift a pure computation that may raise. *)
Definition lift {A : Type} (r : result A) : M A := fun w => (r, w).

(** Read an attribute of the object behind a reference. *)
Definition attr {A : Type} (f : instance -> A) (self : loc) : M A :=
  fun w => (inr (f (heap w self)), w).

(** Assign to an attribute of the object behind a reference. *)
Definition setattr (f : instance -> instance) (self : loc) : M unit :=
  fun w => (inr tt, store self (f (heap w self)) w).

(** Read a class attribute. *)
Definition classattr {A : Type} (f : world -> A) : M A :=
  fun w => (inr (f w), w).

(** [a and b] on booleans: [b] is evaluated only when [a] is true. *)
Definition and_ (a b : M bool) : M bool :=
  x <- a ;; if x then b else ret false.

(** [not a] *)
Definition not_ (a : M bool) : M bool := x <- a ;; ret (negb x).

(** [str(type(o))] for the classes of the module [card]. *)
Definition class_repr (c : class) : string :=
  match c with
  | cls_Card => "<class 'card.Card'>"
  | cls_SchopskopfCard => "<class 'card.SchopskopfCard'>"
  end.

(** ** class Card *)

Module Card.

(** *** Class variables *)

Definition suits : list string := ["clubs"; "spades"; "hearts"; "diamonds"].

(** The glyphs U+2663, U+2660, U+2661 and U+2662, in UTF-8. *)
Definition unicode : list string :=
  [ String "226" (String "153" (String "163" EmptyString));
    String "226" (String "153" (String "160" EmptyString));
    String "226" (String "153" (String "161" EmptyString));
    String "226" (String "153" (String "162" EmptyString)) ].

Definition unicodeDict : gmap string string := list_to_map (zip suits unicode).

Definition names : list string :=
  ["ace"; "2"; "3"; "4"; "5"; "6"; "7"; "8"; "9"; "10"; "jack"; "queen"; "king"].

Definition shortNames : list string :=
  ["A"; "2"; "3"; "4"; "5"; "6"; "7"; "8"; "9"; "10"; "J"; "Q"; "K"].

Definition shortNameDict : gmap string string := list_to_map (zip names shortNames).

Definition hardValues : list Z := [1; 2; 3; 4; 5; 6; 7; 8; 9; 10; 10; 10; 10].
Definition softValues : list Z := [11; 2; 3; 4; 5; 6; 7; 8; 9; 10; 10; 10; 10].

Definition hardValueDict : gmap string Z := list_to_map (zip names hardValues).
Definition softValueDict : gmap string Z := list_to_map (zip names softValues).

Definition ranks : list Z := [1; 2; 3; 4; 5; 6; 7; 8; 9; 10; 11; 12; 13].
Definition rankDict : gmap string Z := list_to_map (zip names ranks).

(** [useUnicode = True] and [debugMode = False] when the module is loaded. *)
Definition initial_useUnicode : bool := true.
Definition initial_debugMode : bool := false.

(** *** [__init__(self, name, suit)]

    The attributes of the new object, or the exception that ends the
    construction.  [cls] is the class being instantiated: [SchopskopfCard]
    inherits this method. *)
Definition __init__ (cls : class) (name suit : string) : result instance :=
  nm <- (if contains (Str.lower name) names then
           ret (Str.lower name)
         else if contains (Str.upper name) shortNames then
           i <- index shortNames (Str.upper name) ;;
           name' <- getitem names i ;;
           ret (Str.lower name')
         else
           inl (TypeError (name +:+ " is not a valid card name."))) ;;
  sn <- subscript shortNameDict nm ;;
  st <- (if contains (Str.lower suit) suits then
           ret (Str.lower suit)
         else
           inl (TypeError (suit +:+ " is not a valid card suit."))) ;;
  let isFacecard := contains nm ["jack"; "queen"; "king"] in
  let isAce := bool_decide (nm = "ace") in
  rk <- subscript rankDict nm ;;
  hv <- subscript hardValueDict nm ;;
  sv <- subscript softValueDict nm ;;
  ret (mk_instance cls nm sn st isFacecard isAce false rk hv sv).

(** [Card(name, suit)] (or [SchopskopfCard(name, suit)]): run [__init__]
    and place the new object at the unused reference [l]. *)
Definition new (l : loc) (cls : class) (name suit : string) : M loc :=
  o <- lift (__init__ cls name suit) ;;
  setattr (fun _ => o) l ;;;
  ret l.

(** *** [flip(self)] *)
Definition flip (self : loc) : M loc :=
  s <- attr __isShowing self ;;
  setattr (set___isShowing (negb s)) self ;;;
  ret self.

(** *** The gated properties *)

Definition isShowing (self : loc) : M bool := attr __isShowing self.

Definition isFacecard (self : loc) : M bool :=
  hidden <- not_ (isShowing self) ;;
  if hidden then raise (RuleError "card is not showing, you can not use is_face_card()")
  else attr __isFacecard self.

Definition isAce (self : loc) : M bool :=
  hidden <- not_ (isShowing self) ;;
  if hidden then raise (RuleError "card is not showing, you can not use is_ace()")
  else attr __isAce self.

Definition hardValue (self : loc) : M Z :=
  hidden <- not_ (isShowing self) ;;
  if hidden then raise (RuleError "card is not showing, you can not use hard_value()")
  else attr __hardValue self.

Definition softValue (self : loc) : M Z :=
  hidden <- not_ (isShowing self) ;;
  if hidden then raise (RuleError "card is not showing, you can not use hard_value()")
  else attr __softValue self.

Definition suit (self : loc) : M string :=
  hidden <- not_ (isShowing self) ;;
  if hidden then raise (RuleError "card is not showing, you can not use suit()")
  else attr __suit self.

(** [self.suit = newSuit] *)
Definition suit_setter (self : loc) (newSuit : string) : M unit :=
  if contains newSuit suits then setattr (set___suit newSuit) self
  else raise (ValueError (newSuit +:+
         " must be in ['clubs', 'spades', 'hearts', 'diamonds']")).

Definition name (self : loc) : M string :=
  hidden <- not_ (isShowing self) ;;
  if hidden then raise (RuleError "card is not showing, you can not use name()")
  else attr __name self.

Definition rank (self : loc) : M Z :=
  hidden <- not_ (isShowing self) ;;
  if hidden then raise (RuleError "card is not showing, you can not use rank()")
  else attr __rank self.

(** *** [sameSuit(self, other)] and [sameRank(self, other)] *)

Definition sameSuit (self other : loc) : M bool :=
  t_other <- attr type other ;;
  t_self <- attr type self ;;
  if bool_decide (t_other <> t_self) then
    raise (TypeError ("Can't compare " +:+ class_repr t_other +:+ " to a Card."))
  else
    hidden <- and_ (not_ (isShowing self)) (not_ (isShowing other)) ;;
    if hidden then
      raise (RuleError "card is not showing, you can not use sameSuit()")
    else
      x <- suit self ;;
      y <- suit other ;;
      ret (bool_decide (x = y)).

Definition sameRank (self other : loc) : M bool :=
  t_other <- attr type other ;;
  t_self <- attr type self ;;
  if bool_decide (t_other <> t_self) then
    raise (TypeError ("Can't compare " +:+ class_repr t_other +:+ " to a Card."))
  else
    hidden <- and_ (not_ (isShowing self)) (not_ (isShowing other)) ;;
    if hidden then
      raise (RuleError "card is not showing, you can not use sameRank()")
    else
      x <- rank self ;;
      y <- rank other ;;
      ret (bool_decide (x = y)).

(** *** [__str__], [__repr__], [__eq__], [__lt__] *)

Definition __str__ (self : loc) : M string :=
  u <- classattr useUnicode ;;
  string <- (if u then
               sn <- attr __shortName self ;;
               st <- attr __suit self ;;
               glyph <- lift (subscript unicodeDict st) ;;
               ret (sn +:+ glyph)
             else
               nm <- attr __name self ;;
               st <- attr __suit self ;;
               ret (Str.capitalize nm +:+ " of " +:+ Str.capitalize st)) ;;
  hidden <- and_ (not_ (attr __isShowing self)) (not_ (classattr debugMode)) ;;
  if hidden then ret "[face down]" else ret string.

Definition __repr__ (self : loc) : M string :=
  nm <- attr __name self ;;
  st <- attr __suit self ;;
  ret ("Card('" +:+ nm +:+ "','" +:+ st +:+ "')").

Definition __eq__ (self other : loc) : M bool :=
  and_ (sameRank self other) (sameSuit self other).

Definition __lt__ (self other : loc) : M bool :=
  x <- attr __rank self ;;
  y <- attr __rank other ;;
  ret (bool_decide (x < y)).

End Card.

(** ** class SchopskopfCard(Card) *)

Module SchopskopfCard.

(** The only method the subclass defines; the rest is inherited. *)
Definition __eq__ (self other : loc) : M bool :=
  and_ (x <- Card.suit self ;; y <- Card.suit other ;; ret (bool_decide (x = y)))
       (x <- Card.name self ;; y <- Card.name other ;; ret (bool_decide (x = y))).

End SchopskopfCard.

(** ** The operators [==] and [<] on two card objects

    [issubclass c d]: [SchopskopfCard] derives from [Card]. *)
Definition issubclass (c d : class) : bool :=
  match c, d with
  | cls_SchopskopfCard, cls_Card => true
  | _, _ => bool_decide (c = d)
  end.

(** Method resolution of [__eq__]. *)
Definition lookup___eq__ (c : class) : loc -> loc -> M bool :=
  match c with
  | cls_Card => Card.__eq__
  | cls_SchopskopfCard => SchopskopfCard.__eq__
  end.

(** [a == b].  When the class of [b] is a proper subclass of the class of
    [a], Python calls the reflected method of [b] first, [b.__eq__(a)], and
    uses the left operand's method only if that returns [NotImplemented];
    neither [__eq__] of card.py ever returns [NotImplemented]. *)
Definition eq_op (a b : loc) : M bool :=
  ta <- attr type a ;;
  tb <- attr type b ;;
  if bool_decide (ta <> tb) && issubclass tb ta then lookup___eq__ tb b a
  else lookup___eq__ ta a b.

(** [a < b].  No class of card.py defines [__gt__], the reflected method
    inherited from [object] returns [NotImplemented], so the call always
    reaches [Card.__lt__(a, b)]. *)
Definition lt_op (a b : loc) : M bool := Card.__lt__ a b.

(** ** The scripts of the unit tests of card.py *)

Module CardTester.

(** A world in its initial configuration whose references are not yet
    bound to cards of interest. *)
Definition blank : instance :=
  mk_instance cls_Card "ace" "A" "clubs" false true false 1 1 11.

Definition w0 : world :=
  mk_world Card.initial_useUnicode Card.initial_debugMode (fun _ => blank).

(** The value a computation returns, dropping the final world. *)
Definition value {A : Type} (m : M A) (w : world) : result A := fst (m w).

(** [test_is_showing], the face-up half. *)
Definition is_showing_up : M (bool * bool * bool * Z * string * string * Z * Z) :=
  c <- Card.new 0%nat cls_Card "ace" "spades" ;;
  Card.flip c ;;;
  v1 <- Card.isShowing c ;;
  v2 <- Card.isAce c ;;
  v3 <- Card.isFacecard c ;;
  v4 <- Card.rank c ;;
  v5 <- Card.name c ;;
  v6 <- Card.suit c ;;
  v7 <- Card.softValue c ;;
  v8 <- Card.hardValue c ;;
  ret (v1, v2, v3, v4, v5, v6, v7, v8).

(** The four cards of [test_equality], all flipped face up. *)
Definition four_cards : M (loc * loc * loc * loc) :=
  c1 <- Card.new 1%nat cls_Card "ace" "spades" ;;
  c2 <- Card.new 2%nat cls_Card "ace" "spades" ;;
  c3 <- Card.new 3%nat cls_Card "king" "hearts" ;;
  c4 <- Card.new 4%nat cls_Card "queen" "spades" ;;
  Card.flip c1 ;;; Card.flip c2 ;;; Card.flip c3 ;;; Card.flip c4 ;;;
  ret (c1, c2, c3, c4).

End CardTester.

(** ** Example worlds *)

Module Examples.

Import CardTester.

(** [Card.debugMode = b], assigned by client code. *)
Definition set_debugMode (b : bool) (w : world) : world :=
  mk_world (useUnicode w) b (heap w).

(** [Card.useUnicode = b], assigned by client code. *)
Definition set_useUnicode (b : bool) (w : world) : world :=
  mk_world b (debugMode w) (heap w).

(** The world a script leaves behind when started in [w0]. *)
Definition after {A : Type} (m : M A) : world := snd (m w0).

(** Cards 0 (ace of spades) and 1 (king of hearts); only card 0 is face up. *)
Definition one_hidden : world :=
  after (a <- Card.new 0%nat cls_Card "ace" "spades" ;;
         b <- Card.new 1%nat cls_Card "king" "hearts" ;;
         Card.flip a).

(** The same two cards, both face up. *)
Definition both_up : world :=
  after (a <- Card.new 0%nat cls_Card "ace" "spades" ;;
         b <- Card.new 1%nat cls_Card "king" "hearts" ;;
         Card.flip a ;;; Card.flip b).

(** A face-down ace of spades at reference 0, with debug mode switched on. *)
Definition hidden_debug : world :=
  set_debugMode true (after (Card.new 0%nat cls_Card "ace" "spades")).

(** Two face-down Schopskopf cards. *)
Definition schopskopf_hidden : world :=
  after (a <- Card.new 0%nat cls_SchopskopfCard "queen" "clubs" ;;
         Card.new 1%nat cls_SchopskopfCard "queen" "clubs").

(** Two Schopskopf queens of different suits, both face up. *)
Definition schopskopf_up : world :=
  after (a <- Card.new 0%nat cls_SchopskopfCard "queen" "clubs" ;;
         b <- Card.new 1%nat cls_SchopskopfCard "queen" "spades" ;;
         Card.flip a ;;; Card.flip b).

(** A [Card] at reference 0 and a [SchopskopfCard] at reference 1, both the
    ace of spades and both face up. *)
Definition mixed_up : world :=
  after (c <- Card.new 0%nat cls_Card "ace" "spades" ;;
         s <- Card.new 1%nat cls_SchopskopfCard "ace" "spades" ;;
         Card.flip c ;;; Card.flip s).

End Examples.

(** ** The worlds a program can reach

    From the initial world, by constructing cards, flipping them, assigning
    suits through the setter and assigning the two class attributes. *)
Inductive reachable : world -> Prop :=
  | reachable_start : reachable CardTester.w0
  | reachable_new w l cls name suit r w' :
      reachable w -> Card.new l cls name suit w = (r, w') -> reachable w'
  | reachable_flip w self r w' :
      reachable w -> Card.flip self w = (r, w') -> reachable w'
  | reachable_suit_setter w self newSuit r w' :
      reachable w -> Card.suit_setter self newSuit w = (r, w') -> reachable w'
  | reachable_flags w u d :
      reachable w -> reachable (mk_world u d (heap w)).

(** An object whose attributes are the ones the constructor derives from
    its class, name and suit; only [__isShowing] is free. *)
Definition well_formed (o : instance) : Prop :=
  Card.__init__ (type o) (__name o) (__suit o) = inr (set___isShowing false o).

(** ** The specification's vocabulary

    These predicates follow the words of the specification, not the code:
    they are what [__init__] is compared with. *)

Module Spec.

(** [x] matches [y] case-insensitively: they are equal once the ASCII
    letters are folded to lower case. *)
Definition ci_match (x y : string) : Prop :=
  Str.ascii_lower x = Str.ascii_lower y.

(** [name] matches one of the 13 canonical names or one of the 13 canonical
    short forms. *)
Definition valid_name (name : string) : Prop :=
  exists n, (n ∈ Card.names \/ n ∈ Card.shortNames) /\ ci_match name n.

(** [suit] matches one of the 4 canonical suits. *)
Definition valid_suit (suit : string) : Prop :=
  exists s, s ∈ Card.suits /\ ci_match suit s.

(** [n] is the canonical long name that [name] spells: [name] matches [n]
    itself, or the short form listed at the position of [n]. *)
Definition long_name_of (name n : string) : Prop :=
  (n ∈ Card.names /\ ci_match name n) \/
  (exists (i : nat) (sn : string),
     Card.names !! i = Some n /\ Card.shortNames !! i = Some sn /\
     ci_match name sn).

End Spec.

(** ** The two validation blocks of [__init__] *)

(** Lines 79 to 90: the stored name, or the [TypeError]. *)
Definition name_block (name : string) : result string :=
  if contains (Str.lower name) Card.names then
    ret (Str.lower name)
  else if contains (Str.upper name) Card.shortNames then
    i <- index Card.shortNames (Str.upper name) ;;
    name' <- getitem Card.names i ;;
    ret (Str.lower name')
  else
    inl (TypeError (name +:+ " is not a valid card name.")).

(** Lines 94 to 97: the stored suit, or the [TypeError]. *)
Definition suit_block (suit : string) : result string :=
  if contains (Str.lower suit) Card.suits then
    ret (Str.lower suit)
  else
    inl (TypeError (suit +:+ " is not a valid card suit.")).

(** ** The unit tests of card.py, replayed on the embedding *)

Example test_is_showing_up :
  CardTester.value CardTester.is_showing_up CardTester.w0
  = inr (true, true, false, 1, "ace", "spades", 11, 1).
Proof. vm_compute. reflexivity. Qed.

(** [test_is_showing], the face-down half: [c.isAce] raises. *)
Example test_is_showing_down :
  CardTester.value (c <- Card.new 0%nat cls_Card "ace" "spades" ;;
         Card.flip c ;;; Card.flip c ;;;
         v <- Card.isShowing c ;;
         e <- Card.isAce c ;;
         ret (v, e)) CardTester.w0
  = inl (RuleError "card is not showing, you can not use is_ace()").
Proof. vm_compute. reflexivity. Qed.

Example test_equality :
  CardTester.value (cs <- CardTester.four_cards ;;
         let '(c1, c2, c3, c4) := cs in
         e1 <- eq_op c1 c1 ;;
         e2 <- eq_op c1 c2 ;;
         e3 <- eq_op c1 c3 ;;
         e4 <- eq_op c3 c4 ;;
         r1 <- Card.sameRank c1 c2 ;;
         r2 <- Card.sameRank c1 c3 ;;
         r3 <- Card.sameRank c3 c4 ;;
         s1 <- Card.sameSuit c1 c2 ;;
         s2 <- Card.sameSuit c1 c4 ;;
         s3 <- Card.sameSuit c1 c3 ;;
         ret [e1; e2; e3; e4; r1; r2; r3; s1; s2; s3]) CardTester.w0
  = inr [true; true; false; false; true; false; false; true; true; false].
Proof. vm_compute. reflexivity. Qed.

Example test_setter :
  CardTester.value (c1 <- Card.new 1%nat cls_Card "10" "diamonds" ;;
         Card.suit_setter c1 "clubs" ;;;
         Card.flip c1 ;;;
         Card.suit c1) CardTester.w0
  = inr "clubs".
Proof. vm_compute. reflexivity. Qed.

(** ** Running the methods symbolically *)

Lemma type_ne_same (c : class) : bool_decide (c <> c) = false.
Proof. destruct c; reflexivity. Qed.

Lemma type_ne_Card_Schopskopf :
  bool_decide (cls_Card <> cls_SchopskopfCard) = true.
Proof. reflexivity. Qed.

Lemma type_ne_Schopskopf_Card :
  bool_decide (cls_SchopskopfCard <> cls_Card) = true.
Proof. reflexivity. Qed.

(** Unfold the method bodies and the monad. *)
Ltac run_methods :=
  cbv beta iota delta
    [Card.sameRank Card.sameSuit Card.rank Card.suit Card.name Card.isShowing
     Card.isFacecard Card.isAce Card.hardValue Card.softValue Card.__eq__
     Card.__lt__ Card.flip Card.suit_setter Card.__str__ Card.__repr__
     SchopskopfCard.__eq__ eq_op lt_op lookup___eq__
     bind ret M_monad raise lift attr setattr classattr and_ not_].

(** Run a method as far as the equations in the context decide its tests. *)
Ltac exec :=
  run_methods;
  repeat (progress (repeat match goal with
                           | H : ?c = _ |- context [?c] => rewrite !H
                           end;
                    rewrite ?type_ne_same, ?type_ne_Card_Schopskopf,
                      ?type_ne_Schopskopf_Card;
                    cbn [negb andb issubclass];
                    cbv beta iota)).

Section Runs.

Variable w : world.
Variables a b : loc.

Local Abbreviation showing l := (__isShowing (heap w l)).

(** Every gated accessor tests [isShowing] and nothing else. *)
Lemma name_run :
  Card.name a w =
  (if showing a then inr (__name (heap w a))
   else inl (RuleError "card is not showing, you can not use name()"), w).
Proof. destruct (showing a) eqn:S; exec; reflexivity. Qed.

Lemma suit_run :
  Card.suit a w =
  (if showing a then inr (__suit (heap w a))
   else inl (RuleError "card is not showing, you can not use suit()"), w).
Proof. destruct (showing a) eqn:S; exec; reflexivity. Qed.

Lemma rank_run :
  Card.rank a w =
  (if showing a then inr (__rank (heap w a))
   else inl (RuleError "card is not showing, you can not use rank()"), w).
Proof. destruct (showing a) eqn:S; exec; reflexivity. Qed.

Lemma hardValue_run :
  Card.hardValue a w =
  (if showing a then inr (__hardValue (heap w a))
   else inl (RuleError "card is not showing, you can not use hard_value()"), w).
Proof. destruct (showing a) eqn:S; exec; reflexivity. Qed.

Lemma softValue_run :
  Card.softValue a w =
  (if showing a then inr (__softValue (heap w a))
   else inl (RuleError "card is not showing, you can not use hard_value()"), w).
Proof. destruct (showing a) eqn:S; exec; reflexivity. Qed.

Lemma isFacecard_run :
  Card.isFacecard a w =
  (if showing a then inr (__isFacecard (heap w a))
   else inl (RuleError "card is not showing, you can not use is_face_card()"), w).
Proof. destruct (showing a) eqn:S; exec; reflexivity. Qed.

Lemma isAce_run :
  Card.isAce a w =
  (if showing a then inr (__isAce (heap w a))
   else inl (RuleError "card is not showing, you can not use is_ace()"), w).
Proof. destruct (showing a) eqn:S; exec; reflexivity. Qed.

(** [flip] returns its own reference and rewrites one attribute. *)
Lemma flip_run :
  Card.flip a w =
  (inr a, store a (set___isShowing (negb (showing a)) (heap w a)) w).
Proof. exec. reflexivity. Qed.

(** The comparisons of two objects of one class: the method's own guard
    fires when both cards are hidden, the accessor's guard when one is. *)
Lemma sameRank_run :
  type (heap w a) = type (heap w b) ->
  Card.sameRank a b w =
  (match showing a, showing b with
   | true, true => inr (bool_decide (__rank (heap w a) = __rank (heap w b)))
   | false, false =>
       inl (RuleError "card is not showing, you can not use sameRank()")
   | _, _ => inl (RuleError "card is not showing, you can not use rank()")
   end, w).
Proof.
  intros T. destruct (showing a) eqn:Sa, (showing b) eqn:Sb;
    exec; reflexivity.
Qed.

Lemma sameSuit_run :
  type (heap w a) = type (heap w b) ->
  Card.sameSuit a b w =
  (match showing a, showing b with
   | true, true => inr (bool_decide (__suit (heap w a) = __suit (heap w b)))
   | false, false =>
       inl (RuleError "card is not showing, you can not use sameSuit()")
   | _, _ => inl (RuleError "card is not showing, you can not use suit()")
   end, w).
Proof.
  intros T. destruct (showing a) eqn:Sa, (showing b) eqn:Sb;
    exec; reflexivity.
Qed.

(** Operands of different classes are refused before any visibility test. *)
Lemma sameRank_other_class :
  type (heap w a) <> type (heap w b) ->
  Card.sameRank a b w =
  (inl (TypeError ("Can't compare " +:+ class_repr (type (heap w b)) +:+
                   " to a Card.")), w).
Proof.
  intros T. destruct (type (heap w a)) eqn:Ta, (type (heap w b)) eqn:Tb;
    try congruence; exec; reflexivity.
Qed.

Lemma sameSuit_other_class :
  type (heap w a) <> type (heap w b) ->
  Card.sameSuit a b w =
  (inl (TypeError ("Can't compare " +:+ class_repr (type (heap w b)) +:+
                   " to a Card.")), w).
Proof.
  intros T. destruct (type (heap w a)) eqn:Ta, (type (heap w b)) eqn:Tb;
    try congruence; exec; reflexivity.
Qed.

(** [SchopskopfCard.__eq__] reads both cards through [suit] and [name]. *)
Lemma Schopskopf_eq_run :
  SchopskopfCard.__eq__ a b w =
  (match showing a, showing b with
   | true, true =>
       inr (bool_decide (__suit (heap w a) = __suit (heap w b))
            && bool_decide (__name (heap w a) = __name (heap w b)))
   | false, _ => inl (RuleError "card is not showing, you can not use suit()")
   | true, false =>
       inl (RuleError "card is not showing, you can not use suit()")
   end, w).
Proof.
  destruct (showing a) eqn:Sa, (showing b) eqn:Sb; exec; try reflexivity.
  destruct (bool_decide (__suit (heap w a) = __suit (heap w b))) eqn:E;
    exec; reflexivity.
Qed.

End Runs.

(** ** Comparisons and the visibility gate *)

(** C1, as the code has it.  For two [Card] objects, [sameRank] and
    [sameSuit] raise [RuleError] (the spec's CardNotShowing) if and only if
    at least one of the two cards is face down; when both are showing the
    call raises nothing, leaves the world as it is and returns whether the
    stored ranks (respectively suits) are equal. *)
Theorem sameRank_sameSuit_gate (w : world) (a b : loc) :
  type (heap w a) = cls_Card ->
  type (heap w b) = cls_Card ->
  ((exists m, Card.sameRank a b w = (inl (RuleError m), w)) <->
     (__isShowing (heap w a) = false \/ __isShowing (heap w b) = false)) /\
  ((exists m, Card.sameSuit a b w = (inl (RuleError m), w)) <->
     (__isShowing (heap w a) = false \/ __isShowing (heap w b) = false)) /\
  (__isShowing (heap w a) = true -> __isShowing (heap w b) = true ->
     Card.sameRank a b w
       = (inr (bool_decide (__rank (heap w a) = __rank (heap w b))), w) /\
     Card.sameSuit a b w
       = (inr (bool_decide (__suit (heap w a) = __suit (heap w b))), w)).
Proof.
  intros Ta Tb.
  assert (T : type (heap w a) = type (heap w b)) by congruence.
  rewrite (sameRank_run w a b T), (sameSuit_run w a b T).
  destruct (__isShowing (heap w a)), (__isShowing (heap w b));
    repeat split; intros; eauto;
    repeat match goal with
           | H : exists _, _ |- _ => destruct H
           | H : _ \/ _ |- _ => destruct H
           end; discriminate.
Qed.

(** Both cards showing: the comparison goes through. *)
Lemma sameRank_sameSuit_gate_witness :
  type (heap Examples.both_up 0%nat) = cls_Card /\
  type (heap Examples.both_up 1%nat) = cls_Card /\
  __isShowing (heap Examples.both_up 0%nat) = true /\
  __isShowing (heap Examples.both_up 1%nat) = true /\
  Card.sameRank 0%nat 1%nat Examples.both_up = (inr false, Examples.both_up) /\
  Card.sameSuit 0%nat 1%nat Examples.both_up = (inr false, Examples.both_up).
Proof.
  do 4 (split; [reflexivity|]).
  destruct (sameRank_sameSuit_gate Examples.both_up 0%nat 1%nat
              eq_refl eq_refl) as (_ & _ & H).
  exact (H eq_refl eq_refl).
Defined.

(** C1 as stated fails: with card 0 showing and card 1 face down, the guard
    of [sameRank] lets the call through and the gated accessor of the hidden
    card raises. *)
Lemma sameRank_sameSuit_one_hidden_raises :
  type (heap Examples.one_hidden 0%nat) = cls_Card /\
  type (heap Examples.one_hidden 1%nat) = cls_Card /\
  __isShowing (heap Examples.one_hidden 0%nat) = true /\
  __isShowing (heap Examples.one_hidden 1%nat) = false /\
  Card.sameRank 0%nat 1%nat Examples.one_hidden
    = (inl (RuleError "card is not showing, you can not use rank()"),
       Examples.one_hidden) /\
  Card.sameSuit 0%nat 1%nat Examples.one_hidden
    = (inl (RuleError "card is not showing, you can not use suit()"),
       Examples.one_hidden).
Proof. repeat split; vm_compute; reflexivity. Qed.

(** C2, as the code has it.  Each gated accessor returns the stored value
    when the card is showing and raises [RuleError] when it is face down,
    whatever the value [d] of [Card.debugMode]; the world is left as it is. *)
Theorem accessors_gate_ignores_debugMode
    (u d : bool) (h : loc -> instance) (self : loc) :
  Card.name self (mk_world u d h) =
    (if __isShowing (h self) then inr (__name (h self))
     else inl (RuleError "card is not showing, you can not use name()"),
     mk_world u d h) /\
  Card.suit self (mk_world u d h) =
    (if __isShowing (h self) then inr (__suit (h self))
     else inl (RuleError "card is not showing, you can not use suit()"),
     mk_world u d h) /\
  Card.rank self (mk_world u d h) =
    (if __isShowing (h self) then inr (__rank (h self))
     else inl (RuleError "card is not showing, you can not use rank()"),
     mk_world u d h) /\
  Card.hardValue self (mk_world u d h) =
    (if __isShowing (h self) then inr (__hardValue (h self))
     else inl (RuleError "card is not showing, you can not use hard_value()"),
     mk_world u d h) /\
  Card.softValue self (mk_world u d h) =
    (if __isShowing (h self) then inr (__softValue (h self))
     else inl (RuleError "card is not showing, you can not use hard_value()"),
     mk_world u d h) /\
  Card.isFacecard self (mk_world u d h) =
    (if __isShowing (h self) then inr (__isFacecard (h self))
     else inl (RuleError "card is not showing, you can not use is_face_card()"),
     mk_world u d h) /\
  Card.isAce self (mk_world u d h) =
    (if __isShowing (h self) then inr (__isAce (h self))
     else inl (RuleError "card is not showing, you can not use is_ace()"),
     mk_world u d h).
Proof.
  rewrite name_run, suit_run, rank_run, hardValue_run, softValue_run,
    isFacecard_run, isAce_run.
  repeat split.
Qed.

(** C2 as stated fails: debug mode is on, the ace of spades at reference 0
    is face down, and every gated accessor still raises. *)
Lemma accessors_raise_in_debugMode :
  debugMode Examples.hidden_debug = true /\
  __isShowing (heap Examples.hidden_debug 0%nat) = false /\
  fst (Card.name 0%nat Examples.hidden_debug)
    = inl (RuleError "card is not showing, you can not use name()") /\
  fst (Card.suit 0%nat Examples.hidden_debug)
    = inl (RuleError "card is not showing, you can not use suit()") /\
  fst (Card.rank 0%nat Examples.hidden_debug)
    = inl (RuleError "card is not showing, you can not use rank()") /\
  fst (Card.hardValue 0%nat Examples.hidden_debug)
    = inl (RuleError "card is not showing, you can not use hard_value()") /\
  fst (Card.softValue 0%nat Examples.hidden_debug)
    = inl (RuleError "card is not showing, you can not use hard_value()") /\
  fst (Card.isFacecard 0%nat Examples.hidden_debug)
    = inl (RuleError "card is not showing, you can not use is_face_card()") /\
  fst (Card.isAce 0%nat Examples.hidden_debug)
    = inl (RuleError "card is not showing, you can not use is_ace()").
Proof. repeat split; vm_compute; reflexivity. Qed.

(** C3, as the code has it.  For two [SchopskopfCard] objects, [a == b]
    reads suit and name through the gated accessors: it raises [RuleError]
    if and only if at least one of the two cards is face down, and when both
    are showing it returns true exactly when the suits and the names are
    equal. *)
Theorem Schopskopf_eq_gated (w : world) (a b : loc) :
  type (heap w a) = cls_SchopskopfCard ->
  type (heap w b) = cls_SchopskopfCard ->
  ((exists m, eq_op a b w = (inl (RuleError m), w)) <->
     (__isShowing (heap w a) = false \/ __isShowing (heap w b) = false)) /\
  (__isShowing (heap w a) = true -> __isShowing (heap w b) = true ->
     exists r, eq_op a b w = (inr r, w) /\
       (r = true <->
          __suit (heap w a) = __suit (heap w b) /\
          __name (heap w a) = __name (heap w b))).
Proof.
  intros Ta Tb.
  assert (E : eq_op a b w = SchopskopfCard.__eq__ a b w).
  { unfold eq_op. exec. reflexivity. }
  rewrite E, Schopskopf_eq_run.
  destruct (__isShowing (heap w a)), (__isShowing (heap w b));
    repeat split; intros; eauto;
    repeat match goal with
           | H : exists _, _ |- _ => destruct H
           | H : _ \/ _ |- _ => destruct H
           end; try discriminate.
  eexists; split; [reflexivity|].
  rewrite andb_true_iff, !bool_decide_eq_true. reflexivity.
Qed.

(** Two Schopskopf queens of different suits, face up, are unequal. *)
Lemma Schopskopf_eq_gated_witness :
  type (heap Examples.schopskopf_up 0%nat) = cls_SchopskopfCard /\
  type (heap Examples.schopskopf_up 1%nat) = cls_SchopskopfCard /\
  __isShowing (heap Examples.schopskopf_up 0%nat) = true /\
  __isShowing (heap Examples.schopskopf_up 1%nat) = true /\
  exists r, eq_op 0%nat 1%nat Examples.schopskopf_up
            = (inr r, Examples.schopskopf_up) /\
    (r = true <->
       __suit (heap Examples.schopskopf_up 0%nat)
         = __suit (heap Examples.schopskopf_up 1%nat) /\
       __name (heap Examples.schopskopf_up 0%nat)
         = __name (heap Examples.schopskopf_up 1%nat)).
Proof.
  do 4 (split; [reflexivity|]).
  destruct (Schopskopf_eq_gated Examples.schopskopf_up 0%nat 1%nat
              eq_refl eq_refl) as [_ H].
  exact (H eq_refl eq_refl).
Defined.

(** C3 as stated fails: two face-down Schopskopf cards compared with [==]
    raise [RuleError]. *)
Lemma Schopskopf_eq_hidden_raises :
  type (heap Examples.schopskopf_hidden 0%nat) = cls_SchopskopfCard /\
  type (heap Examples.schopskopf_hidden 1%nat) = cls_SchopskopfCard /\
  __isShowing (heap Examples.schopskopf_hidden 0%nat) = false /\
  __isShowing (heap Examples.schopskopf_hidden 1%nat) = false /\
  eq_op 0%nat 1%nat Examples.schopskopf_hidden
    = (inl (RuleError "card is not showing, you can not use suit()"),
       Examples.schopskopf_hidden).
Proof. repeat split; vm_compute; reflexivity. Qed.

(** C4.  [a < b] never raises, whatever the visibility of the two cards:
    it leaves the world as it is and returns true exactly when the stored
    rank of [a] is strictly below the stored rank of [b]. *)
Theorem lt_ignores_visibility (w : world) (a b : loc) :
  exists r, lt_op a b w = (inr r, w) /\
    (r = true <-> __rank (heap w a) < __rank (heap w b)).
Proof.
  exists (bool_decide (__rank (heap w a) < __rank (heap w b))). split.
  - exec. reflexivity.
  - apply bool_decide_eq_true.
Qed.

(** C10, as the code has it.  [sameRank] and [sameSuit] demand operands of
    exactly the same class: between a [Card] [c] and a [SchopskopfCard] [s]
    they raise [TypeError] (the spec's TypeMismatch) in both directions,
    whatever the visibility.  The operator [==] does not: [c == s] and
    [s == c] are both answered by [SchopskopfCard.__eq__(s, c)], which has no
    type test; it raises [RuleError] if and only if one of the two cards is
    face down, and otherwise returns whether suits and names are equal. *)
Theorem mixed_class_comparisons (w : world) (c s : loc) :
  type (heap w c) = cls_Card ->
  type (heap w s) = cls_SchopskopfCard ->
  (exists m, Card.sameRank c s w = (inl (TypeError m), w)) /\
  (exists m, Card.sameSuit c s w = (inl (TypeError m), w)) /\
  (exists m, Card.sameRank s c w = (inl (TypeError m), w)) /\
  (exists m, Card.sameSuit s c w = (inl (TypeError m), w)) /\
  eq_op c s w = SchopskopfCard.__eq__ s c w /\
  eq_op s c w = SchopskopfCard.__eq__ s c w /\
  ((exists m, eq_op c s w = (inl (RuleError m), w)) <->
     (__isShowing (heap w c) = false \/ __isShowing (heap w s) = false)) /\
  ((exists m, eq_op s c w = (inl (RuleError m), w)) <->
     (__isShowing (heap w c) = false \/ __isShowing (heap w s) = false)) /\
  (__isShowing (heap w c) = true -> __isShowing (heap w s) = true ->
     exists r, eq_op c s w = (inr r, w) /\ eq_op s c w = (inr r, w) /\
       (r = true <->
          __suit (heap w s) = __suit (heap w c) /\
          __name (heap w s) = __name (heap w c))).
Proof.
  intros Tc Ts.
  assert (Ecs : eq_op c s w = SchopskopfCard.__eq__ s c w).
  { unfold eq_op. exec. reflexivity. }
  assert (Esc : eq_op s c w = SchopskopfCard.__eq__ s c w).
  { unfold eq_op. exec. reflexivity. }
  assert (Ncs : type (heap w c) <> type (heap w s)) by congruence.
  assert (Nsc : type (heap w s) <> type (heap w c)) by congruence.
  rewrite (sameRank_other_class w c s Ncs), (sameSuit_other_class w c s Ncs),
    (sameRank_other_class w s c Nsc), (sameSuit_other_class w s c Nsc).
  do 4 (split; [eexists; reflexivity|]).
  do 2 (split; [assumption|]).
  rewrite Ecs, Esc, Schopskopf_eq_run.
  destruct (__isShowing (heap w c)), (__isShowing (heap w s));
    repeat split; intros; eauto;
    repeat match goal with
           | H : exists _, _ |- _ => destruct H
           | H : _ \/ _ |- _ => destruct H
           end; try discriminate.
  eexists; split; [reflexivity|]. split; [reflexivity|].
  rewrite andb_true_iff, !bool_decide_eq_true. reflexivity.
Qed.

(** A [Card] and a [SchopskopfCard], both the ace of spades and face up. *)
Lemma mixed_class_comparisons_witness :
  type (heap Examples.mixed_up 0%nat) = cls_Card /\
  type (heap Examples.mixed_up 1%nat) = cls_SchopskopfCard /\
  (exists m, Card.sameRank 0%nat 1%nat Examples.mixed_up
             = (inl (TypeError m), Examples.mixed_up)) /\
  eq_op 0%nat 1%nat Examples.mixed_up
    = SchopskopfCard.__eq__ 1%nat 0%nat Examples.mixed_up.
Proof.
  do 2 (split; [reflexivity|]).
  destruct (mixed_class_comparisons Examples.mixed_up 0%nat 1%nat
              eq_refl eq_refl) as (H1 & _ & _ & _ & H5 & _).
  exact (conj H1 H5).
Defined.

(** C10 as stated fails for [==]: comparing a [Card] with a
    [SchopskopfCard], in either order, returns a boolean and raises no
    [TypeError]. *)
Lemma mixed_class_eq_returns :
  type (heap Examples.mixed_up 0%nat) = cls_Card /\
  type (heap Examples.mixed_up 1%nat) = cls_SchopskopfCard /\
  eq_op 0%nat 1%nat Examples.mixed_up = (inr true, Examples.mixed_up) /\
  eq_op 1%nat 0%nat Examples.mixed_up = (inr true, Examples.mixed_up).
Proof. repeat split; vm_compute; reflexivity. Qed.

(** ** The suit setter, [flip] and string rendering *)

(** C6.  The suit setter stores a canonical suit whether or not the card is
    showing, touching no other attribute; any other suit raises
    [ValueError] (the spec's InvalidArgument) and leaves the world, and so
    the stored suit, as it was. *)
Theorem suit_setter_spec (w : world) (self : loc) (newSuit : string) :
  (newSuit ∈ Card.suits ->
     Card.suit_setter self newSuit w
       = (inr tt, store self (set___suit newSuit (heap w self)) w) /\
     __suit (heap (store self (set___suit newSuit (heap w self)) w) self)
       = newSuit /\
     __isShowing (heap (store self (set___suit newSuit (heap w self)) w) self)
       = __isShowing (heap w self)) /\
  (newSuit ∉ Card.suits ->
     exists msg, Card.suit_setter self newSuit w = (inl (ValueError msg), w)).
Proof.
  split; intros H.
  - assert (E : contains newSuit Card.suits = true)
      by (apply bool_decide_eq_true_2; exact H).
    split; [exec; reflexivity|].
    unfold store; cbn [heap]; rewrite fn_lookup_insert; split; reflexivity.
  - assert (E : contains newSuit Card.suits = false)
      by (apply bool_decide_eq_false_2; exact H).
    eexists. exec. reflexivity.
Qed.

(** The face-down ace of spades becomes an ace of clubs; ["Clubs"] is
    refused. *)
Lemma suit_setter_spec_witness :
  (("clubs" ∈ Card.suits) /\
   Card.suit_setter 0%nat "clubs" Examples.hidden_debug
     = (inr tt, store 0%nat (set___suit "clubs" (heap Examples.hidden_debug 0%nat))
                  Examples.hidden_debug)) /\
  (("Clubs" ∉ Card.suits) /\
   exists msg, Card.suit_setter 0%nat "Clubs" Examples.hidden_debug
               = (inl (ValueError msg), Examples.hidden_debug)).
Proof.
  destruct (suit_setter_spec Examples.hidden_debug 0%nat "clubs") as [H1 _].
  destruct (suit_setter_spec Examples.hidden_debug 0%nat "Clubs") as [_ H2].
  assert (I1 : "clubs" ∈ Card.suits) by (apply (bool_decide_eq_true_1 _); reflexivity).
  assert (I2 : "Clubs" ∉ Card.suits) by (apply (bool_decide_eq_false_1 _); reflexivity).
  split; split; [exact I1 | exact (proj1 (H1 I1)) | exact I2 | exact (H2 I2)].
Defined.

(** C9.  A freshly constructed card is face down.  [flip] never raises and
    returns the reference it was called on; afterwards [isShowing] of that
    object is the negation of what it was, its name, short name, suit,
    rank, values, flags and class are what they were, and no other object
    and no class attribute has changed; two flips in a row give back the
    world they started from. *)
Theorem flip_spec (w : world) (self : loc) :
  (forall cls name suit o,
     Card.__init__ cls name suit = inr o -> __isShowing o = false) /\
  (forall l cls name suit r w',
     Card.new l cls name suit w = (inr r, w') ->
     r = l /\ __isShowing (heap w' l) = false /\
     Card.isShowing l w' = (inr false, w')) /\
  (exists w',
     Card.flip self w = (inr self, w') /\
     __isShowing (heap w' self) = negb (__isShowing (heap w self)) /\
     Card.isShowing self w' = (inr (negb (__isShowing (heap w self))), w') /\
     type (heap w' self) = type (heap w self) /\
     __name (heap w' self) = __name (heap w self) /\
     __shortName (heap w' self) = __shortName (heap w self) /\
     __suit (heap w' self) = __suit (heap w self) /\
     __rank (heap w' self) = __rank (heap w self) /\
     __hardValue (heap w' self) = __hardValue (heap w self) /\
     __softValue (heap w' self) = __softValue (heap w self) /\
     __isFacecard (heap w' self) = __isFacecard (heap w self) /\
     __isAce (heap w' self) = __isAce (heap w self) /\
     (forall l, l <> self -> heap w' l = heap w l) /\
     useUnicode w' = useUnicode w /\ debugMode w' = debugMode w) /\
  (exists w'',
     (Card.flip self ;;; Card.flip self) w = (inr self, w'') /\
     (forall l, heap w'' l = heap w l) /\
     useUnicode w'' = useUnicode w /\ debugMode w'' = debugMode w).
Proof.
  assert (I : forall cls name suit o,
             Card.__init__ cls name suit = inr o -> __isShowing o = false).
  { intros cls name suit o H. unfold Card.__init__ in H.
    cbv beta iota delta [bind ret result_monad] in H.
    repeat (match type of H with
            | context [match ?x with _ => _ end] => destruct x eqn:?
            end; try discriminate).
    injection H as <-. reflexivity. }
  split; [exact I|]. split; [|split].
  - intros l cls name suit r w' H. unfold Card.new in H.
    cbv beta iota delta [bind ret M_monad lift setattr] in H.
    destruct (Card.__init__ cls name suit) as [e|o] eqn:E; [discriminate|].
    injection H as <- <-. split; [reflexivity|].
    unfold Card.isShowing, attr, store; cbn [heap].
    rewrite fn_lookup_insert, (I _ _ _ _ E). split; reflexivity.
  - eexists. split; [exec; reflexivity|].
    unfold Card.isShowing, attr, store; cbn [heap useUnicode debugMode].
    rewrite fn_lookup_insert.
    destruct (heap w self) as [t nm snm st fc ac sh r h sf].
    unfold set___isShowing; cbn. repeat split.
    intros l Hl. apply fn_lookup_insert_ne. congruence.
  - eexists. split; [exec; reflexivity|].
    unfold store; cbn [heap useUnicode debugMode]. repeat split.
    intros l. destruct (decide (self = l)) as [->|Hne].
    + rewrite !fn_lookup_insert. destruct (heap w l) as [? ? ? ? ? ? sh ? ? ?].
      unfold set___isShowing; cbn. rewrite negb_involutive. reflexivity.
    + rewrite !fn_lookup_insert_ne by assumption. reflexivity.
Qed.

(** The ace of spades is constructed face down; flipping the face-down ace
    at reference 0 turns it face up and keeps its name. *)
Lemma flip_spec_witness :
  Card.__init__ cls_Card "ace" "spades"
    = inr (mk_instance cls_Card "ace" "A" "spades" false true false 1 1 11) /\
  __isShowing (mk_instance cls_Card "ace" "A" "spades" false true false 1 1 11)
    = false /\
  __isShowing (heap Examples.hidden_debug 0%nat) = false /\
  exists w',
    Card.flip 0%nat Examples.hidden_debug = (inr 0%nat, w') /\
    __isShowing (heap w' 0%nat) = true /\
    Card.isShowing 0%nat w' = (inr true, w') /\
    __name (heap w' 0%nat) = "ace".
Proof.
  split; [reflexivity|].
  destruct (flip_spec Examples.hidden_debug 0%nat)
    as (H & _ & (w' & F & S & G & _ & N & _) & _).
  split; [exact (H cls_Card "ace" "spades" _ eq_refl)|].
  split; [reflexivity|].
  exists w'. split; [exact F|]. split; [exact S|]. split; [exact G|]. exact N.
Defined.

(** Every canonical suit has its glyph, at the same position of [unicode]. *)
Lemma glyph_of_suit (st : string) :
  st ∈ Card.suits ->
  exists (i : nat) (glyph : string),
    Card.suits !! i = Some st /\ Card.unicode !! i = Some glyph /\
    subscript Card.unicodeDict st = inr glyph.
Proof.
  unfold Card.suits. rewrite !elem_of_cons, elem_of_nil.
  intros H. destruct_or! H; try contradiction; subst st.
  - exists 0%nat. eexists. repeat split.
  - exists 1%nat. eexists. repeat split.
  - exists 2%nat. eexists. repeat split.
  - exists 3%nat. eexists. repeat split.
Qed.

(** C8.  For a card whose suit is canonical, [str(card)] is ["[face down]"]
    when the card is hidden and debug mode is off, whatever
    [Card.useUnicode]; otherwise it is the short name followed by the glyph
    of the suit when [Card.useUnicode] is on, and the capitalised name,
    [" of "] and the capitalised suit when it is off. *)
Theorem str_rendering (w : world) (self : loc) :
  __suit (heap w self) ∈ Card.suits ->
  exists (i : nat) (glyph : string),
    Card.suits !! i = Some (__suit (heap w self)) /\
    Card.unicode !! i = Some glyph /\
    Card.__str__ self w =
      (inr (if negb (__isShowing (heap w self)) && negb (debugMode w)
            then "[face down]"
            else if useUnicode w
                 then __shortName (heap w self) +:+ glyph
                 else Str.capitalize (__name (heap w self)) +:+ " of " +:+
                      Str.capitalize (__suit (heap w self))), w).
Proof.
  intros H. destruct (glyph_of_suit _ H) as (i & glyph & Hs & Hu & Hg).
  exists i, glyph. split; [exact Hs|]. split; [exact Hu|].
  destruct (useUnicode w) eqn:U, (__isShowing (heap w self)) eqn:S,
    (debugMode w) eqn:D; exec; reflexivity.
Qed.

(** The ace of spades, face up: ["A"] and the spade glyph U+2660 with
    glyphs on, ["Ace of Spades"] with glyphs off. *)
Lemma str_rendering_witness :
  (__suit (heap Examples.both_up 0%nat) ∈ Card.suits) /\
  Card.__str__ 0%nat Examples.both_up
    = (inr (String "A" (String "226" (String "153" (String "160" EmptyString)))),
       Examples.both_up) /\
  Card.__str__ 0%nat (Examples.set_useUnicode false Examples.both_up)
    = (inr "Ace of Spades", Examples.set_useUnicode false Examples.both_up).
Proof.
  assert (I : __suit (heap Examples.both_up 0%nat) ∈ Card.suits)
    by (apply (bool_decide_eq_true_1 _); reflexivity).
  split; [exact I|].
  destruct (str_rendering Examples.both_up 0%nat I) as (i & g & Hs & Hu & E).
  destruct (str_rendering (Examples.set_useUnicode false Examples.both_up)
              0%nat I) as (i' & g' & _ & _ & E').
  split; [|exact E'].
  rewrite E. destruct i as [|[|[|[|i]]]]; try discriminate Hs.
  injection Hu as <-. reflexivity.
Defined.

(** ** Construction *)

(** *** Case mapping *)

Lemma lower_char_idem (c : ascii) :
  Str.lower_char (Str.lower_char c) = Str.lower_char c.
Proof. destruct c as [[] [] [] [] [] [] [] []]; reflexivity. Qed.

Lemma lower_upper_char (c : ascii) :
  Str.lower_char (Str.upper_char c) = Str.lower_char c.
Proof. destruct c as [[] [] [] [] [] [] [] []]; reflexivity. Qed.

Lemma upper_lower_char (c : ascii) :
  Str.upper_char (Str.lower_char c) = Str.upper_char c.
Proof. destruct c as [[] [] [] [] [] [] [] []]; reflexivity. Qed.

Lemma ascii_lower_idem (s : string) :
  Str.ascii_lower (Str.ascii_lower s) = Str.ascii_lower s.
Proof.
  induction s as [|c r IH]; [reflexivity|].
  cbn [Str.ascii_lower]. rewrite lower_char_idem, IH. reflexivity.
Qed.

Lemma ascii_lower_upper (s : string) :
  Str.ascii_lower (Str.ascii_upper s) = Str.ascii_lower s.
Proof.
  induction s as [|c r IH]; [reflexivity|].
  cbn [Str.ascii_lower Str.ascii_upper].
  rewrite lower_upper_char, IH. reflexivity.
Qed.

Lemma ascii_upper_lower (s : string) :
  Str.ascii_upper (Str.ascii_lower s) = Str.ascii_upper s.
Proof.
  induction s as [|c r IH]; [reflexivity|].
  cbn [Str.ascii_lower Str.ascii_upper].
  rewrite upper_lower_char, IH. reflexivity.
Qed.

(** Folding the ASCII letters neither makes nor removes an ASCII byte. *)
Lemma is_ascii_lower_char (c : ascii) :
  Str.is_ascii_char (Str.lower_char c) = Str.is_ascii_char c.
Proof. destruct c as [[] [] [] [] [] [] [] []]; reflexivity. Qed.

Lemma is_ascii_ascii_lower (s : string) :
  Str.is_ascii (Str.ascii_lower s) = Str.is_ascii s.
Proof.
  induction s as [|c r IH]; [reflexivity|].
  cbn [Str.ascii_lower Str.is_ascii]. rewrite is_ascii_lower_char, IH.
  reflexivity.
Qed.

(** No special code point starts with an ASCII byte. *)
Lemma special_ascii (c c2 c3 : ascii) :
  Str.is_ascii_char c = true ->
  Str.lower2 c c2 = None /\ Str.lower3 c c2 c3 = None /\
  Str.upper2 c c2 = None /\ Str.upper3 c c2 c3 = None.
Proof.
  destruct c as [[] [] [] [] [] [] [] []]; intros H; try discriminate H;
    repeat split.
Qed.

Lemma lower_ascii_head (c : ascii) (r : string) :
  Str.is_ascii_char c = true ->
  Str.lower (String c r) = String (Str.lower_char c) (Str.lower r).
Proof.
  intros H. destruct r as [|c2 [|c3 r3]]; cbn [Str.lower].
  - reflexivity.
  - destruct (special_ascii c c2 c2 H) as (L2 & _). rewrite L2. reflexivity.
  - destruct (special_ascii c c2 c3 H) as (L2 & L3 & _). rewrite L2, L3.
    reflexivity.
Qed.

Lemma upper_ascii_head (c : ascii) (r : string) :
  Str.is_ascii_char c = true ->
  Str.upper (String c r) = String (Str.upper_char c) (Str.upper r).
Proof.
  intros H. destruct r as [|c2 [|c3 r3]]; cbn [Str.upper].
  - reflexivity.
  - destruct (special_ascii c c2 c2 H) as (_ & _ & U2 & _). rewrite U2.
    reflexivity.
  - destruct (special_ascii c c2 c3 H) as (_ & _ & U2 & U3). rewrite U2, U3.
    reflexivity.
Qed.

(** On ASCII strings [lower] and [upper] are the ASCII case mappings. *)
Lemma lower_upper_of_ascii (s : string) :
  Str.is_ascii s = true ->
  Str.lower s = Str.ascii_lower s /\ Str.upper s = Str.ascii_upper s.
Proof.
  induction s as [|c r IH]; [split; reflexivity|].
  cbn [Str.is_ascii]. intros H. apply andb_true_iff in H as [Hc Hr].
  destruct (IH Hr) as [IL IU].
  rewrite (lower_ascii_head c r Hc), (upper_ascii_head c r Hc), IL, IU.
  split; reflexivity.
Qed.

(** The tables hold lower-case names and suits and upper-case short names,
    all of them ASCII. *)
Lemma names_lower (n : string) : n ∈ Card.names -> Str.lower n = n.
Proof.
  unfold Card.names. rewrite !elem_of_cons, elem_of_nil.
  intros H. destruct_or! H; try contradiction; subst n; reflexivity.
Qed.

Lemma suits_lower (s : string) : s ∈ Card.suits -> Str.lower s = s.
Proof.
  unfold Card.suits. rewrite !elem_of_cons, elem_of_nil.
  intros H. destruct_or! H; try contradiction; subst s; reflexivity.
Qed.

Lemma shortNames_upper (sn : string) : sn ∈ Card.shortNames -> Str.upper sn = sn.
Proof.
  unfold Card.shortNames. rewrite !elem_of_cons, elem_of_nil.
  intros H. destruct_or! H; try contradiction; subst sn; reflexivity.
Qed.

Lemma names_ascii (n : string) :
  n ∈ Card.names -> (Str.is_ascii n = true) /\ (Str.ascii_lower n = n).
Proof.
  unfold Card.names. rewrite !elem_of_cons, elem_of_nil.
  intros H. destruct_or! H; try contradiction; subst n; split; reflexivity.
Qed.

Lemma suits_ascii (s : string) :
  s ∈ Card.suits -> (Str.is_ascii s = true) /\ (Str.ascii_lower s = s).
Proof.
  unfold Card.suits. rewrite !elem_of_cons, elem_of_nil.
  intros H. destruct_or! H; try contradiction; subst s; split; reflexivity.
Qed.

Lemma shortNames_ascii (sn : string) :
  sn ∈ Card.shortNames ->
  (Str.is_ascii sn = true) /\ (Str.ascii_upper sn = sn).
Proof.
  unfold Card.shortNames. rewrite !elem_of_cons, elem_of_nil.
  intros H. destruct_or! H; try contradiction; subst sn; split; reflexivity.
Qed.

(** A string that matches an ASCII string is ASCII, and Python's case
    mappings act on it as the ASCII ones. *)
Lemma ci_match_ascii (x y : string) :
  Spec.ci_match x y -> Str.is_ascii y = true ->
  Str.is_ascii x = true /\
  Str.lower x = Str.ascii_lower y /\
  Str.upper x = Str.ascii_upper y.
Proof.
  unfold Spec.ci_match. intros E Hy.
  assert (Hx : Str.is_ascii x = true).
  { rewrite <- is_ascii_ascii_lower, E, is_ascii_ascii_lower. exact Hy. }
  destruct (lower_upper_of_ascii x Hx) as [L U].
  split; [exact Hx|]. split; [rewrite L; exact E|].
  rewrite U, <- (ascii_upper_lower x), E. apply ascii_upper_lower.
Qed.

(** Every canonical name is a key of the four dictionaries. *)
Lemma tables_total (nm : string) :
  nm ∈ Card.names ->
  exists (sn : string) (rk hv sv : Z),
    subscript Card.shortNameDict nm = inr sn /\
    subscript Card.rankDict nm = inr rk /\
    subscript Card.hardValueDict nm = inr hv /\
    subscript Card.softValueDict nm = inr sv.
Proof.
  unfold Card.names. rewrite !elem_of_cons, elem_of_nil.
  intros H. destruct_or! H; try contradiction; subst nm;
    do 4 eexists; repeat split.
Qed.

Lemma init_blocks (cls : class) (name suit : string) :
  Card.__init__ cls name suit =
  (nm <- name_block name ;;
   sn <- subscript Card.shortNameDict nm ;;
   st <- suit_block suit ;;
   rk <- subscript Card.rankDict nm ;;
   hv <- subscript Card.hardValueDict nm ;;
   sv <- subscript Card.softValueDict nm ;;
   ret (mk_instance cls nm sn st (contains nm ["jack"; "queen"; "king"])
          (bool_decide (nm = "ace")) false rk hv sv)).
Proof. reflexivity. Qed.

Lemma contains_true (x : string) (l : list string) :
  x ∈ l -> contains x l = true.
Proof. apply bool_decide_eq_true_2. Qed.

Lemma contains_false (x : string) (l : list string) :
  x ∉ l -> contains x l = false.
Proof. apply bool_decide_eq_false_2. Qed.

(** A canonical name is stored as it is. *)
Lemma name_block_canonical (n : string) :
  n ∈ Card.names -> name_block n = inr n.
Proof.
  intros Hn. unfold name_block.
  rewrite (names_lower n Hn), (contains_true n _ Hn). reflexivity.
Qed.

(** A name that spells the canonical name [n] is stored as [n]. *)
Lemma name_block_ok (name n : string) :
  Spec.long_name_of name n -> name_block name = inr n.
Proof.
  unfold Spec.long_name_of, name_block.
  intros [[Hn E] | (i & sn & Hi & Hs & E)].
  - destruct (names_ascii n Hn) as [An Ln].
    destruct (ci_match_ascii _ _ E An) as (_ & L & _).
    rewrite Ln in L. rewrite L, (contains_true n _ Hn). reflexivity.
  - assert (Hsn : sn ∈ Card.shortNames)
      by (eapply list_elem_of_lookup_2; exact Hs).
    destruct (shortNames_ascii sn Hsn) as [As _].
    destruct (ci_match_ascii _ _ E As) as (_ & L & U).
    do 13 (try destruct i as [|i]); try discriminate Hi;
      injection Hi as <-; injection Hs as <-;
      cbn in L, U; rewrite L, U; reflexivity.
Qed.

(** What [name_block] does, by the two tests of the source. *)
Lemma name_block_cases (name : string) :
  (exists n, name_block name = inr n /\ n ∈ Card.names /\
     ((Str.lower name ∈ Card.names /\ n = Str.lower name) \/
      ((Str.lower name ∉ Card.names) /\
       exists i : nat, Card.shortNames !! i = Some (Str.upper name) /\
                       Card.names !! i = Some n))) \/
  (name_block name = inl (TypeError (name +:+ " is not a valid card name.")) /\
   (Str.lower name ∉ Card.names) /\ (Str.upper name ∉ Card.shortNames)).
Proof.
  destruct (decide (Str.lower name ∈ Card.names)) as [Hl | Hl].
  - left. exists (Str.lower name). unfold name_block.
    rewrite (contains_true _ _ Hl). split; [reflexivity|].
    split; [exact Hl|]. left. split; [exact Hl | reflexivity].
  - destruct (decide (Str.upper name ∈ Card.shortNames)) as [Hu | Hu].
    + left. pose proof Hu as Hu'. apply list_elem_of_lookup in Hu' as [i Hi].
      assert (Hlen : (i < length Card.names)%nat).
      { apply lookup_lt_Some in Hi. exact Hi. }
      destruct (lookup_lt_is_Some_2 _ _ Hlen) as [n Hn].
      exists n. split; [|split].
      * unfold name_block.
        rewrite (contains_false _ _ Hl), (contains_true _ _ Hu).
        clear Hl Hu Hlen.
        do 13 (try destruct i as [|i]); try discriminate Hi;
          injection Hi as <-; injection Hn as <-; reflexivity.
      * eapply list_elem_of_lookup_2; exact Hn.
      * right. split; [exact Hl|]. exists i. split; assumption.
    + right. unfold name_block.
      rewrite (contains_false _ _ Hl), (contains_false _ _ Hu).
      split; [reflexivity|]. split; assumption.
Qed.

(** What [suit_block] does. *)
Lemma suit_block_cases (suit : string) :
  (suit_block suit = inr (Str.lower suit) /\ Str.lower suit ∈ Card.suits) \/
  (suit_block suit = inl (TypeError (suit +:+ " is not a valid card suit.")) /\
   Str.lower suit ∉ Card.suits).
Proof.
  unfold suit_block.
  destruct (decide (Str.lower suit ∈ Card.suits)) as [Hl | Hl].
  - left. rewrite (contains_true _ _ Hl). split; [reflexivity | exact Hl].
  - right. rewrite (contains_false _ _ Hl). split; [reflexivity | exact Hl].
Qed.

(** [__init__] either builds the card with the canonical name and the
    lower-cased suit, or raises [TypeError] on an argument that fails its
    test. *)
Lemma init_cases (cls : class) (name suit : string) :
  (exists (n sn : string) (rk hv sv : Z),
     Card.__init__ cls name suit
       = inr (mk_instance cls n sn (Str.lower suit)
                (contains n ["jack"; "queen"; "king"])
                (bool_decide (n = "ace")) false rk hv sv) /\
     n ∈ Card.names /\
     ((Str.lower name ∈ Card.names /\ n = Str.lower name) \/
      ((Str.lower name ∉ Card.names) /\
       exists i : nat, Card.shortNames !! i = Some (Str.upper name) /\
                       Card.names !! i = Some n)) /\
     Str.lower suit ∈ Card.suits /\
     name_block name = inr n) \/
  (exists msg,
     Card.__init__ cls name suit = inl (TypeError msg) /\
     ~ ((Str.lower name ∈ Card.names \/ Str.upper name ∈ Card.shortNames) /\
        Str.lower suit ∈ Card.suits)).
Proof.
  rewrite init_blocks.
  destruct (name_block_cases name) as [(n & E & Hn & L) | (E & N1 & N2)];
    rewrite E; cbn [bind result_monad].
  - destruct (tables_total n Hn) as (sn & rk & hv & sv & E1 & E2 & E3 & E4).
    rewrite E1.
    destruct (suit_block_cases suit) as [[Es Hs] | [Es NS]]; rewrite Es.
    + rewrite E2, E3, E4. left. exists n, sn, rk, hv, sv.
      split; [reflexivity|]. repeat split; assumption.
    + right. eexists. split; [reflexivity|]. intros [_ V]. exact (NS V).
  - right. eexists. split; [reflexivity|].
    intros [[V | V] _]; [exact (N1 V) | exact (N2 V)].
Qed.

(** On ASCII strings the tests of the source are the case-insensitive
    matches of the specification. *)
Lemma valid_name_iff (name : string) :
  Spec.valid_name name <->
  Str.is_ascii name = true /\
  (Str.lower name ∈ Card.names \/ Str.upper name ∈ Card.shortNames).
Proof.
  split.
  - intros (n & [Hn | Hn] & E).
    + destruct (names_ascii n Hn) as [An Ln].
      destruct (ci_match_ascii _ _ E An) as (A & L & _).
      split; [exact A|]. left. rewrite L, Ln. exact Hn.
    + destruct (shortNames_ascii n Hn) as [An Un].
      destruct (ci_match_ascii _ _ E An) as (A & _ & U).
      split; [exact A|]. right. rewrite U, Un. exact Hn.
  - intros [A H]. destruct (lower_upper_of_ascii name A) as [L U].
    destruct H as [H | H].
    + exists (Str.lower name). split; [left; exact H|].
      unfold Spec.ci_match. rewrite L. symmetry. apply ascii_lower_idem.
    + exists (Str.upper name). split; [right; exact H|].
      unfold Spec.ci_match. rewrite U. symmetry. apply ascii_lower_upper.
Qed.

Lemma valid_suit_iff (suit : string) :
  Spec.valid_suit suit <->
  Str.is_ascii suit = true /\ Str.lower suit ∈ Card.suits.
Proof.
  split.
  - intros (s & Hs & E).
    destruct (suits_ascii s Hs) as [As Ls].
    destruct (ci_match_ascii _ _ E As) as (A & L & _).
    split; [exact A|]. rewrite L, Ls. exact Hs.
  - intros [A H]. destruct (lower_upper_of_ascii suit A) as [L _].
    exists (Str.lower suit). split; [exact H|].
    unfold Spec.ci_match. rewrite L. symmetry. apply ascii_lower_idem.
Qed.

(** C5, as the code has it.  [Card(name, suit)] succeeds exactly when
    [name.lower()] is a canonical name or [name.upper()] a canonical short
    form, and [suit.lower()] is a canonical suit; anything else raises
    [TypeError] (the spec's InvalidArgument).  The stored name is a
    canonical long name, [name.lower()] itself or the one listed at the
    position of the short form; the stored suit is [suit.lower()]; both are
    lower-case entries of the tables.  For ASCII arguments, and only for
    them, the two tests are the case-insensitive matches of the
    specification. *)
Theorem init_accepts_exactly_valid (cls : class) (name suit : string) :
  (((Str.lower name ∈ Card.names \/ Str.upper name ∈ Card.shortNames) /\
    Str.lower suit ∈ Card.suits) <->
     (exists o, Card.__init__ cls name suit = inr o)) /\
  (~ ((Str.lower name ∈ Card.names \/ Str.upper name ∈ Card.shortNames) /\
      Str.lower suit ∈ Card.suits) ->
     exists msg, Card.__init__ cls name suit = inl (TypeError msg)) /\
  (forall o, Card.__init__ cls name suit = inr o ->
     __name o ∈ Card.names /\
     (Str.lower name ∈ Card.names -> __name o = Str.lower name) /\
     (Str.lower name ∉ Card.names ->
      exists i : nat, Card.shortNames !! i = Some (Str.upper name) /\
                      Card.names !! i = Some (__name o)) /\
     Str.lower (__name o) = __name o /\
     __suit o = Str.lower suit /\
     __suit o ∈ Card.suits /\ Str.lower (__suit o) = __suit o) /\
  (Spec.valid_name name <->
     Str.is_ascii name = true /\
     (Str.lower name ∈ Card.names \/ Str.upper name ∈ Card.shortNames)) /\
  (Spec.valid_suit suit <->
     Str.is_ascii suit = true /\ Str.lower suit ∈ Card.suits).
Proof.
  split; [|split; [|split; [|split; [apply valid_name_iff | apply valid_suit_iff]]]];
    destruct (init_cases cls name suit)
      as [(n & sn & rk & hv & sv & E & Hn & L & Hs & _) | (msg & E & NV)];
    rewrite E.
  - split; [intros _; eexists; reflexivity|].
    intros _. split; [|exact Hs].
    destruct L as [[H _] | (_ & i & Hi & _)]; [left; exact H | right].
    eapply list_elem_of_lookup_2. exact Hi.
  - split; [intros V; contradiction | intros [o H]; discriminate].
  - intros NV. exfalso. apply NV. split; [|exact Hs].
    destruct L as [[H _] | (_ & i & Hi & _)]; [left; exact H | right].
    eapply list_elem_of_lookup_2. exact Hi.
  - intros _. eexists. reflexivity.
  - intros o [= <-]. cbn [__name __suit].
    split; [exact Hn|].
    split. { intros H. destruct L as [[_ L] | [L _]]; [exact L | contradiction]. }
    split. { intros H. destruct L as [[L _] | [_ L]]; [contradiction | exact L]. }
    split; [exact (names_lower _ Hn)|]. split; [reflexivity|].
    split; [exact Hs | exact (suits_lower _ Hs)].
  - intros o H. discriminate.
Qed.

(** ["ACE"] of ["Spades"] is accepted and stored as ["ace"] of ["spades"];
    the ["joker"] is refused. *)
Lemma init_accepts_exactly_valid_witness :
  (exists o, Card.__init__ cls_Card "ACE" "Spades" = inr o /\
             __name o = "ace" /\ __suit o = "spades") /\
  (exists msg, Card.__init__ cls_Card "joker" "spades" = inl (TypeError msg)).
Proof.
  destruct (init_accepts_exactly_valid cls_Card "ACE" "Spades")
    as (_ & _ & H & _).
  destruct (init_accepts_exactly_valid cls_Card "joker" "spades")
    as ([Hv _] & Hf & _).
  split.
  - eexists. split; [reflexivity|].
    destruct (H _ eq_refl) as (_ & _ & _ & _ & Hs & _). split; [reflexivity|].
    exact Hs.
  - apply Hf. intros V. apply Hv in V. destruct V as [o V]. discriminate V.
Defined.

(** C5 as stated fails beyond ASCII, whichever case mapping is taken for
    the match.  U+212A KELVIN SIGN lower-cases to ['k'] and upper-cases to
    itself.  So the kelvin sign followed by ["ing"] builds the king,
    although it is no ASCII spelling and its upper-case form is that of no
    canonical name or short form; and the kelvin sign alone is refused,
    although its lower-case form is that of the short form ["K"]. *)
Lemma init_kelvin_sign :
  Card.__init__ cls_Card (Str.kelvin +:+ "ing") "hearts"
    = inr (mk_instance cls_Card "king" "K" "hearts" true false false 13 10 10) /\
  ~ Spec.valid_name (Str.kelvin +:+ "ing") /\
  (Str.upper (Str.kelvin +:+ "ing")
     ∉ (Str.upper <$> Card.names ++ Card.shortNames)) /\
  Card.__init__ cls_Card Str.kelvin "hearts"
    = inl (TypeError (Str.kelvin +:+ " is not a valid card name.")) /\
  Str.lower Str.kelvin = Str.lower "K".
Proof.
  split; [vm_compute; reflexivity|]. split.
  { intros V. apply valid_name_iff in V as [A _]. discriminate A. }
  split. { apply (bool_decide_eq_false_1 _). vm_compute. reflexivity. }
  split; vm_compute; reflexivity.
Qed.

(** C7.  For a canonical name [n] and a canonical suit [s], every spelling
    [n'] that matches [n] or the short form of [n], and every spelling [s']
    that matches [s], ignoring case, builds a card with exactly the
    attributes of [Card(n, s)]. *)
Theorem init_case_and_spelling_invariant
    (cls : class) (n s n' s' : string) :
  n ∈ Card.names ->
  s ∈ Card.suits ->
  (Spec.ci_match n' n \/
   exists (i : nat) (sn : string),
     Card.names !! i = Some n /\ Card.shortNames !! i = Some sn /\
     Spec.ci_match n' sn) ->
  Spec.ci_match s' s ->
  exists o, Card.__init__ cls n s = inr o /\ Card.__init__ cls n' s' = inr o.
Proof.
  intros Hn Hs Hn' Hs'.
  assert (L' : Spec.long_name_of n' n).
  { destruct Hn' as [E | H]; [left; split; assumption | right; exact H]. }
  assert (L : Spec.long_name_of n n) by (left; split; [exact Hn | reflexivity]).
  assert (Es : Str.lower s = s) by exact (suits_lower s Hs).
  assert (Es' : Str.lower s' = s).
  { destruct (suits_ascii s Hs) as [As Ls].
    destruct (ci_match_ascii _ _ Hs' As) as (_ & L0 & _).
    rewrite L0. exact Ls. }
  assert (B : suit_block s = inr s).
  { unfold suit_block. rewrite Es, (contains_true s _ Hs). reflexivity. }
  assert (B' : suit_block s' = inr s).
  { unfold suit_block. rewrite Es', (contains_true s _ Hs). reflexivity. }
  destruct (tables_total n Hn) as (sn & rk & hv & sv & E1 & E2 & E3 & E4).
  rewrite !init_blocks, (name_block_ok _ _ L), (name_block_ok _ _ L').
  cbn [bind result_monad]. rewrite E1, B, B', E2, E3, E4.
  eexists. split; reflexivity.
Qed.

(** ["A"] of ["SPADES"] builds the card that ["ace"] of ["spades"] builds. *)
Lemma init_case_and_spelling_invariant_witness :
  exists o, Card.__init__ cls_Card "ace" "spades" = inr o /\
            Card.__init__ cls_Card "A" "SPADES" = inr o.
Proof.
  apply (init_case_and_spelling_invariant cls_Card "ace" "spades" "A" "SPADES").
  - apply (bool_decide_eq_true_1 _). reflexivity.
  - apply (bool_decide_eq_true_1 _). reflexivity.
  - right. exists 0%nat, "A". repeat split.
  - reflexivity.
Defined.

(** ** An invariant of the reachable worlds *)

(** Every object of a reachable world holds a canonical suit, which is what
    [__str__] needs to find the glyph. *)
Lemma reachable_suit_canonical (w : world) :
  reachable w -> forall l, __suit (heap w l) ∈ Card.suits.
Proof.
  induction 1 as [ | w l cls name suit r w' _ IH H
                   | w self r w' _ IH H
                   | w self newSuit r w' _ IH H
                   | w u d _ IH ]; intros k.
  - apply (bool_decide_eq_true_1 _). reflexivity.
  - unfold Card.new in H.
    cbv beta iota delta [bind ret M_monad lift setattr] in H.
    destruct (init_cases cls name suit)
      as [(n & sn & rk & hv & sv & E & _ & _ & Hs & _) | (msg & E & _)];
      rewrite E in H; injection H as <- <-; [|apply IH].
    unfold store; cbn [heap]. destruct (decide (l = k)) as [->|Hne].
    + rewrite fn_lookup_insert. exact Hs.
    + rewrite fn_lookup_insert_ne by assumption. apply IH.
  - rewrite (flip_run w self) in H. injection H as <- <-.
    unfold store; cbn [heap]. destruct (decide (self = k)) as [->|Hne].
    + rewrite fn_lookup_insert. apply IH.
    + rewrite fn_lookup_insert_ne by assumption. apply IH.
  - unfold Card.suit_setter in H.
    destruct (contains newSuit Card.suits) eqn:C.
    + cbv beta iota delta [setattr] in H. injection H as <- <-.
      unfold store; cbn [heap]. destruct (decide (self = k)) as [->|Hne].
      * rewrite fn_lookup_insert. apply (bool_decide_eq_true_1 _). exact C.
      * rewrite fn_lookup_insert_ne by assumption. apply IH.
    + cbv beta iota delta [raise] in H. injection H as <- <-. apply IH.
  - apply IH.
Qed.

(** ** The class tables *)

(** X1.  The dictionaries built by [dict(zip(names, ...))] are aligned with the
    lists: the entry of the name at position [i] is the item at position
    [i] of the zipped list, and its rank is [i + 1]; the same holds for the
    suits and their glyphs. *)
Theorem class_tables_aligned :
  (forall (i : nat) (n : string),
     Card.names !! i = Some n ->
     Card.shortNameDict !! n = Card.shortNames !! i /\
     Card.rankDict !! n = Card.ranks !! i /\
     Card.hardValueDict !! n = Card.hardValues !! i /\
     Card.softValueDict !! n = Card.softValues !! i /\
     Card.rankDict !! n = Some (Z.of_nat i + 1)) /\
  (forall (i : nat) (s : string),
     Card.suits !! i = Some s ->
     Card.unicodeDict !! s = Card.unicode !! i /\
     is_Some (Card.unicodeDict !! s)) /\
  (forall n : string,
     n ∉ Card.names ->
     Card.shortNameDict !! n = None /\ Card.rankDict !! n = None /\
     Card.hardValueDict !! n = None /\ Card.softValueDict !! n = None).
Proof.
  split; [|split].
  - intros i n H.
    do 13 (try destruct i as [|i]); try discriminate H;
      injection H as <-; repeat split.
  - intros i s H.
    do 4 (try destruct i as [|i]); try discriminate H;
      injection H as <-; (split; [reflexivity | eexists; reflexivity]).
  - intros n H.
    assert (D : forall (V : Type) (l : list V),
              (list_to_map (zip Card.names l) : gmap string V) !! n = None).
    { intros V l. apply not_elem_of_list_to_map_1.
      intros Hin. apply H. apply list_elem_of_fmap in Hin as [[k v] [-> Hkv]].
      apply elem_of_zip_l in Hkv. exact Hkv. }
    repeat split; apply D.
Qed.

(** The king sits at position 12 of [names]; ["joker"] is in no table. *)
Lemma class_tables_aligned_witness :
  Card.names !! 12%nat = Some "king" /\
  Card.rankDict !! "king" = Some 13 /\
  ("joker" ∉ Card.names) /\
  Card.rankDict !! "joker" = None.
Proof.
  destruct class_tables_aligned as (H1 & _ & H3).
  assert (N : "joker" ∉ Card.names)
    by (apply (bool_decide_eq_false_1 _); reflexivity).
  split; [reflexivity|].
  split; [exact (proj2 (proj2 (proj2 (proj2 (H1 12%nat "king" eq_refl)))))|].
  split; [exact N|]. exact (proj1 (proj2 (H3 "joker" N))).
Defined.

(** ** What the constructor stores *)

(** The pieces of a successful construction. *)
Lemma init_inv (cls : class) (name suit : string) (o : instance) :
  Card.__init__ cls name suit = inr o ->
  exists (n sn : string) (rk hv sv : Z),
    n ∈ Card.names /\
    ((Str.lower name ∈ Card.names /\ n = Str.lower name) \/
     ((Str.lower name ∉ Card.names) /\
      exists i : nat, Card.shortNames !! i = Some (Str.upper name) /\
                      Card.names !! i = Some n)) /\
    Str.lower suit ∈ Card.suits /\
    name_block name = inr n /\
    suit_block suit = inr (Str.lower suit) /\
    subscript Card.shortNameDict n = inr sn /\
    subscript Card.rankDict n = inr rk /\
    subscript Card.hardValueDict n = inr hv /\
    subscript Card.softValueDict n = inr sv /\
    o = mk_instance cls n sn (Str.lower suit)
          (contains n ["jack"; "queen"; "king"]) (bool_decide (n = "ace"))
          false rk hv sv.
Proof.
  rewrite init_blocks.
  destruct (name_block_cases name) as [(n & E & Hn & L) | [E _]];
    rewrite E; cbn [bind result_monad]; [|discriminate].
  destruct (tables_total n Hn) as (sn & rk & hv & sv & E1 & E2 & E3 & E4).
  rewrite E1.
  destruct (suit_block_cases suit) as [[Es Hs] | [Es _]]; rewrite Es;
    [|discriminate].
  rewrite E2, E3, E4. intros [= <-].
  exists n, sn, rk, hv, sv. repeat split; assumption.
Qed.

(** Arguments that pass the two tests with the same results build the same
    object. *)
Lemma init_congr (cls : class) (n1 s1 n2 s2 : string) :
  name_block n1 = name_block n2 ->
  Str.lower s1 = Str.lower s2 ->
  Str.lower s1 ∈ Card.suits ->
  Card.__init__ cls n1 s1 = Card.__init__ cls n2 s2.
Proof.
  intros En Es Hs. rewrite !init_blocks, En. unfold suit_block.
  rewrite <- Es, (contains_true _ _ Hs). reflexivity.
Qed.

(** The row of the tables a canonical name selects. *)
Lemma names_row (n sn : string) (rk hv sv : Z) :
  n ∈ Card.names ->
  subscript Card.shortNameDict n = inr sn ->
  subscript Card.rankDict n = inr rk ->
  subscript Card.hardValueDict n = inr hv ->
  subscript Card.softValueDict n = inr sv ->
  exists i : nat,
    Card.names !! i = Some n /\ Card.shortNames !! i = Some sn /\
    rk = Z.of_nat i + 1 /\ 1 <= rk <= 13 /\
    hv = Z.min rk 10 /\
    sv = (if bool_decide (n = "ace") then 11 else hv) /\
    bool_decide (n = "ace") = bool_decide (rk = 1) /\
    contains n ["jack"; "queen"; "king"] = bool_decide (11 <= rk).
Proof.
  unfold Card.names at 1. rewrite !elem_of_cons, elem_of_nil.
  intros H. destruct_or! H; try contradiction; subst n;
    intros H1 H2 H3 H4; vm_compute in H1, H2, H3, H4;
    injection H1 as <-; injection H2 as <-; injection H3 as <-;
    injection H4 as <-.
  - exists 0%nat. repeat split; discriminate.
  - exists 1%nat. repeat split; discriminate.
  - exists 2%nat. repeat split; discriminate.
  - exists 3%nat. repeat split; discriminate.
  - exists 4%nat. repeat split; discriminate.
  - exists 5%nat. repeat split; discriminate.
  - exists 6%nat. repeat split; discriminate.
  - exists 7%nat. repeat split; discriminate.
  - exists 8%nat. repeat split; discriminate.
  - exists 9%nat. repeat split; discriminate.
  - exists 10%nat. repeat split; discriminate.
  - exists 11%nat. repeat split; discriminate.
  - exists 12%nat. repeat split; discriminate.
Qed.

(** A constructed object is well formed. *)
Lemma init_well_formed (cls : class) (name suit : string) (o : instance) :
  Card.__init__ cls name suit = inr o -> well_formed o.
Proof.
  intros H. pose proof H as H'.
  apply init_inv in H'
    as (n & sn & rk & hv & sv & Hn & _ & Hs & B & _ & _ & _ & _ & _ & ->).
  unfold well_formed, set___isShowing. cbn.
  rewrite <- H. apply init_congr.
  - rewrite B. apply name_block_canonical. exact Hn.
  - apply suits_lower. exact Hs.
  - rewrite (suits_lower _ Hs). exact Hs.
Qed.

(** The attributes of a well-formed object, read off the tables. *)
Lemma well_formed_attributes (o : instance) :
  well_formed o ->
  __suit o ∈ Card.suits /\
  exists i : nat,
    Card.names !! i = Some (__name o) /\
    Card.shortNames !! i = Some (__shortName o) /\
    __rank o = Z.of_nat i + 1 /\ 1 <= __rank o <= 13 /\
    __hardValue o = Z.min (__rank o) 10 /\
    __softValue o = (if __isAce o then 11 else __hardValue o) /\
    __isAce o = bool_decide (__rank o = 1) /\
    __isFacecard o = bool_decide (11 <= __rank o).
Proof.
  unfold well_formed. intros H.
  apply init_inv in H
    as (n & sn & rk & hv & sv & Hn & _ & Hs & _ & _ & E1 & E2 & E3 & E4 & E).
  destruct o as [t nm snm st fc ac sh r h sf]. cbn in *.
  injection E as Q1 Q2 Q3 Q4 Q5 Q6 Q7 Q8.
  rewrite <- Q3 in Hs. subst nm snm fc ac r h sf.
  split; [exact Hs|].
  destruct (names_row n sn rk hv sv Hn E1 E2 E3 E4)
    as (i & H1 & H2 & H3 & H4 & H5 & H6 & H7 & H8).
  exists i. rewrite <- H7. repeat split; try assumption; apply H4.
Qed.

(** Assigning a canonical suit keeps an object well formed. *)
Lemma set_suit_well_formed (s : string) (o : instance) :
  s ∈ Card.suits -> well_formed o -> well_formed (set___suit s o).
Proof.
  unfold well_formed. intros Hs H.
  apply init_inv in H
    as (n & sn & rk & hv & sv & Hn & L & _ & B & _ & E1 & E2 & E3 & E4 & E).
  destruct o as [t nm snm st fc ac sh r h sf].
  unfold set___suit, set___isShowing in *.
  cbn [type __name __shortName __suit __isFacecard __isAce __isShowing
       __rank __hardValue __softValue] in *.
  injection E as Q1 Q2 Q3 Q4 Q5 Q6 Q7 Q8. subst nm snm fc ac r h sf.
  rewrite init_blocks, (name_block_ok n n) by (left; split; [exact Hn | reflexivity]).
  cbn [bind result_monad]. rewrite E1.
  unfold suit_block. rewrite (suits_lower s Hs), (contains_true s _ Hs).
  cbn [bind ret result_monad]. rewrite E2, E3, E4. reflexivity.
Qed.

(** Every object of a reachable world is well formed. *)
Lemma reachable_well_formed (w : world) :
  reachable w -> forall l, well_formed (heap w l).
Proof.
  induction 1 as [ | w l cls name suit r w' _ IH H
                   | w self r w' _ IH H
                   | w self newSuit r w' _ IH H
                   | w u d _ IH ]; intros k.
  - reflexivity.
  - unfold Card.new in H.
    cbv beta iota delta [bind ret M_monad lift setattr] in H.
    destruct (Card.__init__ cls name suit) as [e|o] eqn:E;
      injection H as <- <-; [apply IH|].
    unfold store; cbn [heap]. destruct (decide (l = k)) as [->|Hne].
    + rewrite fn_lookup_insert. exact (init_well_formed _ _ _ _ E).
    + rewrite fn_lookup_insert_ne by assumption. apply IH.
  - rewrite (flip_run w self) in H. injection H as <- <-.
    unfold store; cbn [heap]. destruct (decide (self = k)) as [->|Hne].
    + rewrite fn_lookup_insert. exact (IH k).
    + rewrite fn_lookup_insert_ne by assumption. apply IH.
  - unfold Card.suit_setter in H.
    destruct (contains newSuit Card.suits) eqn:C.
    + cbv beta iota delta [setattr] in H. injection H as <- <-.
      unfold store; cbn [heap]. destruct (decide (self = k)) as [->|Hne].
      * rewrite fn_lookup_insert. apply set_suit_well_formed; [|apply IH].
        apply (bool_decide_eq_true_1 _). exact C.
      * rewrite fn_lookup_insert_ne by assumption. apply IH.
    + cbv beta iota delta [raise] in H. injection H as <- <-. apply IH.
  - apply IH.
Qed.

(** ** More runs *)

Section MoreRuns.

Variable w : world.
Variables a b : loc.

Local Abbreviation shown l := (__isShowing (heap w l)).

(** [Card.__eq__] on two objects of one class: [sameSuit] is only called
    when [sameRank] has returned true. *)
Lemma Card_eq_run :
  type (heap w a) = type (heap w b) ->
  Card.__eq__ a b w =
  (match shown a, shown b with
   | true, true =>
       inr (bool_decide (__rank (heap w a) = __rank (heap w b))
            && bool_decide (__suit (heap w a) = __suit (heap w b)))
   | false, false =>
       inl (RuleError "card is not showing, you can not use sameRank()")
   | _, _ => inl (RuleError "card is not showing, you can not use rank()")
   end, w).
Proof.
  intros T. destruct (shown a) eqn:Sa, (shown b) eqn:Sb;
    exec; try reflexivity.
  destruct (bool_decide (__rank (heap w a) = __rank (heap w b))) eqn:E;
    exec; reflexivity.
Qed.

Lemma Card_eq_other_class :
  type (heap w a) <> type (heap w b) ->
  Card.__eq__ a b w =
  (inl (TypeError ("Can't compare " +:+ class_repr (type (heap w b)) +:+
                   " to a Card.")), w).
Proof.
  intros T. destruct (type (heap w a)) eqn:Ta, (type (heap w b)) eqn:Tb;
    try congruence; exec; reflexivity.
Qed.

(** Which [__eq__] the operator [==] calls, and on which operands. *)
Lemma eq_op_dispatch :
  eq_op a b w =
  match type (heap w a), type (heap w b) with
  | cls_Card, cls_Card => Card.__eq__ a b w
  | cls_Card, cls_SchopskopfCard => SchopskopfCard.__eq__ b a w
  | cls_SchopskopfCard, _ => SchopskopfCard.__eq__ a b w
  end.
Proof.
  destruct (type (heap w a)) eqn:Ta, (type (heap w b)) eqn:Tb;
    unfold eq_op; exec; reflexivity.
Qed.

Lemma str_run :
  Card.__str__ a w =
  (match (if useUnicode w then
            match subscript Card.unicodeDict (__suit (heap w a)) with
            | inl e => inl e
            | inr glyph => inr (__shortName (heap w a) +:+ glyph)
            end
          else
            inr (Str.capitalize (__name (heap w a)) +:+ " of " +:+
                 Str.capitalize (__suit (heap w a)))) with
   | inl e => inl e
   | inr s => inr (if negb (shown a) && negb (debugMode w)
                   then "[face down]" else s)
   end, w).
Proof.
  destruct (useUnicode w) eqn:U, (shown a) eqn:S, (debugMode w) eqn:D;
    try destruct (subscript Card.unicodeDict (__suit (heap w a))) eqn:G;
    exec; reflexivity.
Qed.

Lemma repr_run :
  Card.__repr__ a w =
  (inr ("Card('" +:+ __name (heap w a) +:+ "','" +:+ __suit (heap w a) +:+
        "')"), w).
Proof. reflexivity. Qed.

Lemma lt_run :
  lt_op a b w = (inr (bool_decide (__rank (heap w a) < __rank (heap w b))), w).
Proof. reflexivity. Qed.

Lemma suit_setter_run (newSuit : string) :
  Card.suit_setter a newSuit w =
  if contains newSuit Card.suits
  then (inr tt, store a (set___suit newSuit (heap w a)) w)
  else (inl (ValueError (newSuit +:+
              " must be in ['clubs', 'spades', 'hearts', 'diamonds']")), w).
Proof.
  unfold Card.suit_setter. destruct (contains newSuit Card.suits); reflexivity.
Qed.

End MoreRuns.

(** ** Equality of two cards *)

(** X2.  For two [Card] objects, [a == b] raises [RuleError] exactly when one of
    them is face down; when both are showing it returns true exactly when
    the stored ranks and the stored suits are equal, and a showing card is
    equal to itself. *)
Theorem Card_eq_gate (w : world) (a b : loc) :
  type (heap w a) = cls_Card ->
  type (heap w b) = cls_Card ->
  ((exists m, eq_op a b w = (inl (RuleError m), w)) <->
     (__isShowing (heap w a) = false \/ __isShowing (heap w b) = false)) /\
  (__isShowing (heap w a) = true -> __isShowing (heap w b) = true ->
     exists r, eq_op a b w = (inr r, w) /\
       (r = true <->
          __rank (heap w a) = __rank (heap w b) /\
          __suit (heap w a) = __suit (heap w b))) /\
  (__isShowing (heap w a) = true -> eq_op a a w = (inr true, w)).
Proof.
  intros Ta Tb.
  assert (T : type (heap w a) = type (heap w b)) by congruence.
  rewrite !eq_op_dispatch, Ta, Tb, (Card_eq_run w a b T),
    (Card_eq_run w a a eq_refl).
  destruct (__isShowing (heap w a)), (__isShowing (heap w b));
    repeat split; intros; eauto;
    repeat match goal with
           | H : exists _, _ |- _ => destruct H
           | H : _ \/ _ |- _ => destruct H
           end; try discriminate;
    try (rewrite !bool_decide_eq_true_2 by reflexivity; reflexivity).
  all: eexists; split; [reflexivity|];
    rewrite andb_true_iff, !bool_decide_eq_true; reflexivity.
Qed.

(** The ace of spades and the king of hearts, face up, are unequal. *)
Lemma Card_eq_gate_witness :
  type (heap Examples.both_up 0%nat) = cls_Card /\
  type (heap Examples.both_up 1%nat) = cls_Card /\
  __isShowing (heap Examples.both_up 0%nat) = true /\
  eq_op 0%nat 0%nat Examples.both_up = (inr true, Examples.both_up).
Proof.
  do 3 (split; [reflexivity|]).
  destruct (Card_eq_gate Examples.both_up 0%nat 1%nat eq_refl eq_refl)
    as (_ & _ & H).
  exact (H eq_refl).
Defined.

(** ** Reachable worlds *)

(** The example worlds are reachable. *)
Lemma both_up_reachable : reachable Examples.both_up.
Proof.
  pose proof reachable_start as R0.
  pose proof (reachable_new _ 0%nat cls_Card "ace" "spades" _ _ R0 eq_refl)
    as R1.
  pose proof (reachable_new _ 1%nat cls_Card "king" "hearts" _ _ R1 eq_refl)
    as R2.
  pose proof (reachable_flip _ 0%nat _ _ R2 eq_refl) as R3.
  pose proof (reachable_flip _ 1%nat _ _ R3 eq_refl) as R4.
  exact R4.
Qed.

Lemma schopskopf_up_reachable : reachable Examples.schopskopf_up.
Proof.
  pose proof reachable_start as R0.
  pose proof (reachable_new _ 0%nat cls_SchopskopfCard "queen" "clubs" _ _
                R0 eq_refl) as R1.
  pose proof (reachable_new _ 1%nat cls_SchopskopfCard "queen" "spades" _ _
                R1 eq_refl) as R2.
  pose proof (reachable_flip _ 0%nat _ _ R2 eq_refl) as R3.
  pose proof (reachable_flip _ 1%nat _ _ R3 eq_refl) as R4.
  exact R4.
Qed.

Lemma hidden_debug_reachable : reachable Examples.hidden_debug.
Proof.
  pose proof reachable_start as R0.
  pose proof (reachable_new _ 0%nat cls_Card "ace" "spades" _ _ R0 eq_refl)
    as R1.
  exact (reachable_flags _ (useUnicode CardTester.w0) true R1).
Qed.

(** X3.  Whatever cards are built, flipped and re-suited, every object keeps a
    canonical name and suit and the derived attributes of its name: the
    short name at the same table position, a rank from 1 to 13 equal to the
    position plus one, a hard value of [min(rank, 10)], a soft value of 11
    for an ace and the hard value otherwise, the ace flag exactly at rank 1
    and the face-card flag exactly at ranks 11 to 13. *)
Theorem reachable_attributes (w : world) (l : loc) :
  reachable w ->
  __suit (heap w l) ∈ Card.suits /\
  exists i : nat,
    Card.names !! i = Some (__name (heap w l)) /\
    Card.shortNames !! i = Some (__shortName (heap w l)) /\
    __rank (heap w l) = Z.of_nat i + 1 /\
    1 <= __rank (heap w l) <= 13 /\
    __hardValue (heap w l) = Z.min (__rank (heap w l)) 10 /\
    __softValue (heap w l)
      = (if __isAce (heap w l) then 11 else __hardValue (heap w l)) /\
    __isAce (heap w l) = bool_decide (__rank (heap w l) = 1) /\
    __isFacecard (heap w l) = bool_decide (11 <= __rank (heap w l)).
Proof.
  intros R. apply well_formed_attributes, reachable_well_formed, R.
Qed.

(** The king of hearts at reference 1. *)
Lemma reachable_attributes_witness :
  reachable Examples.both_up /\
  __hardValue (heap Examples.both_up 1%nat)
    = Z.min (__rank (heap Examples.both_up 1%nat)) 10 /\
  __isFacecard (heap Examples.both_up 1%nat)
    = bool_decide (11 <= __rank (heap Examples.both_up 1%nat)).
Proof.
  split; [exact both_up_reachable|].
  destruct (reachable_attributes Examples.both_up 1%nat both_up_reachable)
    as (_ & i & _ & _ & _ & _ & H1 & _ & _ & H2).
  exact (conj H1 H2).
Defined.

(** Two well-formed objects have the same rank exactly when they have the
    same name. *)
Lemma well_formed_rank_name (o1 o2 : instance) :
  well_formed o1 -> well_formed o2 ->
  (__rank o1 = __rank o2 <-> __name o1 = __name o2).
Proof.
  intros W1 W2.
  destruct (well_formed_attributes o1 W1) as (_ & i & N1 & _ & K1 & _).
  destruct (well_formed_attributes o2 W2) as (_ & j & N2 & _ & K2 & _).
  split; intros E.
  - assert (i = j) by lia. subst j. congruence.
  - assert (Hnd : NoDup Card.names).
    { apply (bool_decide_eq_true_1 _). reflexivity. }
    rewrite <- E in N2.
    assert (i = j) by (eapply NoDup_lookup; eassumption). subst j. lia.
Qed.

(** X4.  In a reachable world, for two showing objects of one class, the
    inherited [Card.__eq__] and the override [SchopskopfCard.__eq__] return
    the same boolean: true exactly when names and suits are equal. *)
Theorem eq_override_agrees (w : world) (a b : loc) :
  reachable w ->
  type (heap w a) = type (heap w b) ->
  __isShowing (heap w a) = true ->
  __isShowing (heap w b) = true ->
  exists r,
    Card.__eq__ a b w = (inr r, w) /\
    SchopskopfCard.__eq__ a b w = (inr r, w) /\
    (r = true <->
       __name (heap w a) = __name (heap w b) /\
       __suit (heap w a) = __suit (heap w b)).
Proof.
  intros R T Sa Sb.
  pose proof (well_formed_rank_name _ _ (reachable_well_formed w R a)
                (reachable_well_formed w R b)) as RN.
  rewrite (Card_eq_run w a b T), Schopskopf_eq_run, Sa, Sb.
  exists (bool_decide (__suit (heap w a) = __suit (heap w b))
          && bool_decide (__name (heap w a) = __name (heap w b))).
  split; [|split].
  - do 2 f_equal. rewrite andb_comm. f_equal.
    apply bool_decide_ext. exact RN.
  - reflexivity.
  - rewrite andb_true_iff, !bool_decide_eq_true. tauto.
Qed.

(** The queens of clubs and of spades: both methods answer false. *)
Lemma eq_override_agrees_witness :
  reachable Examples.schopskopf_up /\
  Card.__eq__ 0%nat 1%nat Examples.schopskopf_up
    = (inr false, Examples.schopskopf_up) /\
  SchopskopfCard.__eq__ 0%nat 1%nat Examples.schopskopf_up
    = (inr false, Examples.schopskopf_up).
Proof.
  split; [exact schopskopf_up_reachable|].
  destruct (eq_override_agrees Examples.schopskopf_up 0%nat 1%nat
              schopskopf_up_reachable eq_refl eq_refl eq_refl)
    as (r & H1 & H2 & _).
  assert (E0 : fst (SchopskopfCard.__eq__ 0%nat 1%nat Examples.schopskopf_up)
               = inr false) by (vm_compute; reflexivity).
  assert (E : r = false).
  { rewrite H2 in E0. cbn [fst] in E0. injection E0 as ->. reflexivity. }
  rewrite E in H1, H2. exact (conj H1 H2).
Defined.

(** ** Rebuilding a card from what it stores *)

(** X5.  Constructing again from the stored name, or from the stored short
    name, with the stored suit gives back the constructed object. *)
Theorem init_from_stored_names (cls : class) (name suit : string) (o : instance) :
  Card.__init__ cls name suit = inr o ->
  Card.__init__ cls (__name o) (__suit o) = inr o /\
  Card.__init__ cls (__shortName o) (__suit o) = inr o.
Proof.
  intros H. pose proof H as H'.
  apply init_inv in H'
    as (n & sn & rk & hv & sv & Hn & _ & Hs & B & _ & E1 & E2 & E3 & E4 & ->).
  cbn [__name __shortName __suit].
  destruct (names_row n sn rk hv sv Hn E1 E2 E3 E4) as (i & H1 & H2 & _).
  assert (Es : Str.lower (Str.lower suit) = Str.lower suit)
    by exact (suits_lower _ Hs).
  assert (Hs' : Str.lower (Str.lower suit) ∈ Card.suits)
    by (rewrite Es; exact Hs).
  rewrite <- H. split; apply init_congr; try assumption; rewrite B.
  - apply name_block_canonical. exact Hn.
  - apply name_block_ok. right. exists i, sn. repeat split; assumption.
Qed.

(** The card built from ["Q"] and ["HEARTS"] is rebuilt from ["queen"] and
    from ["Q"] with ["hearts"]. *)
Lemma init_from_stored_names_witness :
  exists o,
    Card.__init__ cls_Card "Q" "HEARTS" = inr o /\
    Card.__init__ cls_Card "queen" "hearts" = inr o /\
    Card.__init__ cls_Card "Q" "hearts" = inr o.
Proof.
  eexists. split; [reflexivity|].
  exact (init_from_stored_names cls_Card "Q" "HEARTS" _ eq_refl).
Defined.

(** X6.  [repr(card)] never raises and ignores visibility and debug mode: in a
    reachable world it is ["Card('name','suit')"] with the stored name and
    the stored suit, also for a face-down card and for a [SchopskopfCard],
    and constructing a [Card] from the stored name and suit gives a
    face-down card with the attributes of the original. *)
Theorem repr_round_trip (w : world) (self : loc) :
  reachable w ->
  Card.__repr__ self w
    = (inr ("Card('" +:+ __name (heap w self) +:+ "','" +:+
            __suit (heap w self) +:+ "')"), w) /\
  Card.__init__ cls_Card (__name (heap w self)) (__suit (heap w self))
    = inr (mk_instance cls_Card (__name (heap w self))
             (__shortName (heap w self)) (__suit (heap w self))
             (__isFacecard (heap w self)) (__isAce (heap w self)) false
             (__rank (heap w self)) (__hardValue (heap w self))
             (__softValue (heap w self))).
Proof.
  intros R. split; [apply repr_run|].
  pose proof (reachable_well_formed w R self) as W. unfold well_formed in W.
  apply init_inv in W
    as (n & sn & rk & hv & sv & Hn & _ & _ & B1 & B2 & E1 & E2 & E3 & E4 & E).
  destruct (heap w self) as [t nm snm st fc ac sh r h sf].
  unfold set___isShowing in E.
  cbn [type __name __shortName __suit __isFacecard __isAce __isShowing
       __rank __hardValue __softValue] in *.
  injection E as Q1 Q2 Q3 Q4 Q5 Q6 Q7 Q8.
  rewrite init_blocks, B1. cbn [bind result_monad]. rewrite E1, B2.
  cbn [bind result_monad]. rewrite E2, E3, E4. cbn [bind ret result_monad].
  congruence.
Qed.

(** The face-down ace of spades, with debug mode on. *)
Lemma repr_round_trip_witness :
  reachable Examples.hidden_debug /\
  __isShowing (heap Examples.hidden_debug 0%nat) = false /\
  Card.__repr__ 0%nat Examples.hidden_debug
    = (inr "Card('ace','spades')", Examples.hidden_debug) /\
  Card.__init__ cls_Card "ace" "spades"
    = inr (mk_instance cls_Card "ace" "A" "spades" false true false 1 1 11).
Proof.
  split; [exact hidden_debug_reachable|]. split; [reflexivity|].
  exact (repr_round_trip Examples.hidden_debug 0%nat hidden_debug_reachable).
Defined.

(** ** Errors of the constructor *)

(** X7.  The name is tested before the suit: a name that fails both tests of
    the source is the one the [TypeError] reports, whatever the suit; the
    suit is reported only when the name has passed. *)
Theorem init_error_names_first_invalid_argument
    (cls : class) (name suit : string) :
  (Str.lower name ∉ Card.names -> Str.upper name ∉ Card.shortNames ->
     Card.__init__ cls name suit
       = inl (TypeError (name +:+ " is not a valid card name."))) /\
  ((Str.lower name ∈ Card.names) \/ (Str.upper name ∈ Card.shortNames) ->
   Str.lower suit ∉ Card.suits ->
     Card.__init__ cls name suit
       = inl (TypeError (suit +:+ " is not a valid card suit."))).
Proof.
  rewrite init_blocks. split.
  - intros N1 N2.
    destruct (name_block_cases name)
      as [(n & _ & _ & [[H _] | (_ & i & Hi & _)]) | [E _]].
    + contradiction.
    + exfalso. apply N2. eapply list_elem_of_lookup_2. exact Hi.
    + rewrite E. reflexivity.
  - intros V NS.
    destruct (name_block_cases name) as [(n & E & Hn & _) | (_ & N1 & N2)];
      [|destruct V; contradiction].
    destruct (tables_total n Hn) as (sn & _ & _ & _ & E1 & _).
    destruct (suit_block_cases suit) as [[_ VS] | [Es _]];
      [contradiction|].
    rewrite E. cbn [bind result_monad]. rewrite E1, Es. reflexivity.
Qed.

(** A joker of stars is refused for its name, an ace of stars for its
    suit. *)
Lemma init_error_names_first_invalid_argument_witness :
  Card.__init__ cls_Card "joker" "stars"
    = inl (TypeError "joker is not a valid card name.") /\
  Card.__init__ cls_Card "ace" "stars"
    = inl (TypeError "stars is not a valid card suit.").
Proof.
  destruct (init_error_names_first_invalid_argument cls_Card "joker" "stars")
    as [H1 _].
  destruct (init_error_names_first_invalid_argument cls_Card "ace" "stars")
    as [_ H2].
  assert (N1 : Str.lower "joker" ∉ Card.names)
    by (apply (bool_decide_eq_false_1 _); reflexivity).
  assert (N2 : Str.upper "joker" ∉ Card.shortNames)
    by (apply (bool_decide_eq_false_1 _); reflexivity).
  assert (N3 : Str.lower "stars" ∉ Card.suits)
    by (apply (bool_decide_eq_false_1 _); reflexivity).
  assert (V : Str.lower "ace" ∈ Card.names)
    by (apply (bool_decide_eq_true_1 _); reflexivity).
  exact (conj (H1 N1 N2) (H2 (or_introl V) N3)).
Defined.

(** ** Ordering *)

(** X8.  [<] is a strict order on the stored ranks: no card is below itself, two
    cards are never below each other, the relation is transitive, and two
    cards of which neither is below the other have the same rank, which in
    a reachable world means the same name. *)
Theorem lt_strict_order (w : world) (a b c : loc) :
  lt_op a a w = (inr false, w) /\
  (lt_op a b w = (inr true, w) -> lt_op b a w = (inr false, w)) /\
  (lt_op a b w = (inr true, w) -> lt_op b c w = (inr true, w) ->
   lt_op a c w = (inr true, w)) /\
  (lt_op a b w = (inr false, w) -> lt_op b a w = (inr false, w) ->
   __rank (heap w a) = __rank (heap w b) /\
   (reachable w -> __name (heap w a) = __name (heap w b))).
Proof.
  rewrite (lt_run w a a), (lt_run w a b), (lt_run w b a), (lt_run w b c),
    (lt_run w a c).
  split; [|split; [|split]].
  - rewrite bool_decide_eq_false_2 by lia. reflexivity.
  - intros [= H]. apply bool_decide_eq_true in H.
    rewrite bool_decide_eq_false_2 by lia. reflexivity.
  - intros [= H1] [= H2]. apply bool_decide_eq_true in H1, H2.
    rewrite bool_decide_eq_true_2 by lia. reflexivity.
  - intros [= H1] [= H2]. apply bool_decide_eq_false in H1, H2.
    assert (E : __rank (heap w a) = __rank (heap w b)) by lia.
    split; [exact E|]. intros R.
    apply (well_formed_rank_name _ _ (reachable_well_formed w R a)
             (reachable_well_formed w R b)). exact E.
Qed.

(** The ace is below the king, so the king is not below the ace. *)
Lemma lt_strict_order_witness :
  lt_op 0%nat 1%nat Examples.both_up = (inr true, Examples.both_up) /\
  lt_op 1%nat 0%nat Examples.both_up = (inr false, Examples.both_up).
Proof.
  split; [reflexivity|].
  destruct (lt_strict_order Examples.both_up 0%nat 1%nat 0%nat)
    as (_ & H & _).
  exact (H eq_refl).
Defined.

(** ** Flipping and the gate *)

(** X9.  [flip] toggles what the gated accessors do: a showing card answers
    before the flip and raises [RuleError] after it, a face-down card raises
    before and answers with the stored value after. *)
Theorem flip_toggles_gate (w : world) (self : loc) :
  if __isShowing (heap w self) then
    Card.name self w = (inr (__name (heap w self)), w) /\
    Card.rank self w = (inr (__rank (heap w self)), w) /\
    (exists m, fst ((Card.flip self ;;; Card.name self) w) = inl (RuleError m)) /\
    (exists m, fst ((Card.flip self ;;; Card.suit self) w) = inl (RuleError m)) /\
    (exists m, fst ((Card.flip self ;;; Card.rank self) w) = inl (RuleError m)) /\
    (exists m, fst ((Card.flip self ;;; Card.hardValue self) w) = inl (RuleError m)) /\
    (exists m, fst ((Card.flip self ;;; Card.softValue self) w) = inl (RuleError m)) /\
    (exists m, fst ((Card.flip self ;;; Card.isFacecard self) w) = inl (RuleError m)) /\
    (exists m, fst ((Card.flip self ;;; Card.isAce self) w) = inl (RuleError m))
  else
    (exists m, Card.name self w = (inl (RuleError m), w)) /\
    (exists m, Card.rank self w = (inl (RuleError m), w)) /\
    fst ((Card.flip self ;;; Card.name self) w) = inr (__name (heap w self)) /\
    fst ((Card.flip self ;;; Card.suit self) w) = inr (__suit (heap w self)) /\
    fst ((Card.flip self ;;; Card.rank self) w) = inr (__rank (heap w self)) /\
    fst ((Card.flip self ;;; Card.hardValue self) w)
      = inr (__hardValue (heap w self)) /\
    fst ((Card.flip self ;;; Card.softValue self) w)
      = inr (__softValue (heap w self)) /\
    fst ((Card.flip self ;;; Card.isFacecard self) w)
      = inr (__isFacecard (heap w self)) /\
    fst ((Card.flip self ;;; Card.isAce self) w) = inr (__isAce (heap w self)).
Proof.
  set (w' := store self (set___isShowing (negb (__isShowing (heap w self)))
                           (heap w self)) w).
  assert (B : forall (A : Type) (m : M A), (Card.flip self ;;; m) w = m w').
  { intros A m. cbv beta iota delta [bind M_monad].
    rewrite (flip_run w self). reflexivity. }
  assert (Hw' : heap w' self
                = set___isShowing (negb (__isShowing (heap w self)))
                    (heap w self)).
  { unfold w', store; cbn [heap]. apply fn_lookup_insert. }
  rewrite (B _ (Card.name self)), (B _ (Card.suit self)),
    (B _ (Card.rank self)), (B _ (Card.hardValue self)),
    (B _ (Card.softValue self)), (B _ (Card.isFacecard self)),
    (B _ (Card.isAce self)).
  rewrite (name_run w self), (rank_run w self), (name_run w' self),
    (suit_run w' self), (rank_run w' self), (hardValue_run w' self),
    (softValue_run w' self), (isFacecard_run w' self), (isAce_run w' self).
  rewrite Hw'. clear B Hw'. clearbody w'.
  destruct (heap w self) as [t nm snm st fc ac [|] r h sf]; cbn;
    repeat split; eexists; reflexivity.
Qed.

(** ** Reading never writes *)

(** X10.  The accessors, the comparisons, the two operators, [str] and [repr]
    leave every object and both class attributes as they were, whether they
    return or raise. *)
Theorem readers_leave_world_unchanged (w : world) (a b : loc) :
  snd (Card.isShowing a w) = w /\
  snd (Card.name a w) = w /\ snd (Card.suit a w) = w /\
  snd (Card.rank a w) = w /\ snd (Card.hardValue a w) = w /\
  snd (Card.softValue a w) = w /\ snd (Card.isFacecard a w) = w /\
  snd (Card.isAce a w) = w /\
  snd (Card.sameRank a b w) = w /\ snd (Card.sameSuit a b w) = w /\
  snd (Card.__eq__ a b w) = w /\ snd (SchopskopfCard.__eq__ a b w) = w /\
  snd (eq_op a b w) = w /\ snd (lt_op a b w) = w /\
  snd (Card.__str__ a w) = w /\ snd (Card.__repr__ a w) = w.
Proof.
  assert (S : forall x y, snd (SchopskopfCard.__eq__ x y w) = w)
    by (intros x y; rewrite Schopskopf_eq_run; reflexivity).
  assert (C : forall x y, snd (Card.__eq__ x y w) = w).
  { intros x y.
    destruct (decide (type (heap w x) = type (heap w y))) as [T|T].
    - rewrite (Card_eq_run w x y T). reflexivity.
    - rewrite (Card_eq_other_class w x y T). reflexivity. }
  rewrite name_run, suit_run, rank_run, hardValue_run, softValue_run,
    isFacecard_run, isAce_run, str_run, repr_run, lt_run, eq_op_dispatch.
  repeat split; try apply S; try apply C.
  - destruct (decide (type (heap w a) = type (heap w b))) as [T|T].
    + rewrite (sameRank_run w a b T). reflexivity.
    + rewrite (sameRank_other_class w a b T). reflexivity.
  - destruct (decide (type (heap w a) = type (heap w b))) as [T|T].
    + rewrite (sameSuit_run w a b T). reflexivity.
    + rewrite (sameSuit_other_class w a b T). reflexivity.
  - destruct (type (heap w a)), (type (heap w b)); first [apply S | apply C].
Qed.

(** ** Constructing and then reading *)

Lemma new_run (w : world) (l : loc) (cls : class) (name suit : string) :
  Card.new l cls name suit w =
  match Card.__init__ cls name suit with
  | inl e => (inl e, w)
  | inr o => (inr l, store l o w)
  end.
Proof.
  unfold Card.new. cbv beta iota delta [bind ret M_monad lift setattr].
  destruct (Card.__init__ cls name suit); reflexivity.
Qed.

(** X11.  A construction that fails raises [TypeError] and leaves the world as it
    was.  One that succeeds returns the new reference and touches no other
    object; the new card is face down, so its gated accessors raise
    [RuleError], and after one [flip] they return the canonical name
    ([name.lower()], or the long name at the position of the short form
    [name.upper()]) and the lower-cased suit. *)
Theorem fresh_card_accessors
    (w : world) (l : loc) (cls : class) (name suit : string) :
  (forall e w',
     Card.new l cls name suit w = (inl e, w') ->
     w' = w /\ exists msg, e = TypeError msg) /\
  (forall r w',
     Card.new l cls name suit w = (inr r, w') ->
     r = l /\
     (forall k, k <> l -> heap w' k = heap w k) /\
     Card.isShowing l w' = (inr false, w') /\
     (exists m, Card.name l w' = (inl (RuleError m), w')) /\
     (exists m, Card.suit l w' = (inl (RuleError m), w')) /\
     (exists m, Card.rank l w' = (inl (RuleError m), w')) /\
     (exists n,
        (n ∈ Card.names) /\
        (Str.lower name ∈ Card.names -> n = Str.lower name) /\
        (Str.lower name ∉ Card.names ->
         exists i : nat, Card.shortNames !! i = Some (Str.upper name) /\
                         Card.names !! i = Some n) /\
        fst ((Card.flip l ;;; Card.name l) w') = inr n) /\
     fst ((Card.flip l ;;; Card.suit l) w') = inr (Str.lower suit)).
Proof.
  rewrite new_run.
  destruct (init_cases cls name suit)
    as [(n & sn & rk & hv & sv & E & Hn & L & Hs & V) | (msg & E & _)];
    rewrite E; (split; [intros e w' [= <- <-] | intros r w' [= <- <-]]);
    [|split; [reflexivity | eexists; reflexivity]].
  set (o := mk_instance cls n sn (Str.lower suit)
                (contains n ["jack"; "queen"; "king"])
                (bool_decide (n = "ace")) false rk hv sv).
    set (w' := store l o w).
    assert (Hl : heap w' l = o)
      by (unfold w', store; cbn [heap]; apply fn_lookup_insert).
    set (w'' := store l (set___isShowing (negb (__isShowing (heap w' l)))
                           (heap w' l)) w').
    assert (B : forall (A : Type) (m : M A), (Card.flip l ;;; m) w' = m w'').
    { intros A m. cbv beta iota delta [bind M_monad].
      rewrite (flip_run w' l). reflexivity. }
    assert (Hl' : heap w'' l = set___isShowing true o).
    { unfold w'', store; cbn [heap]. rewrite fn_lookup_insert, Hl.
      reflexivity. }
    rewrite (B _ (Card.name l)), (B _ (Card.suit l)).
    rewrite (name_run w' l), (suit_run w' l), (rank_run w' l),
      (name_run w'' l), (suit_run w'' l), Hl, Hl'.
    split; [reflexivity|]. split.
    { intros k Hk. unfold w', store; cbn [heap].
      apply fn_lookup_insert_ne. congruence. }
    split. { unfold Card.isShowing, attr. rewrite Hl. reflexivity. }
    do 3 (split; [eexists; reflexivity|]).
    split; [|reflexivity]. exists n. split; [exact Hn|].
    split. { intros H. destruct L as [[_ L] | [L _]]; [exact L | contradiction]. }
    split; [|reflexivity].
    intros H. destruct L as [[L _] | [_ L]]; [contradiction | exact L].
Qed.

(** ["ACE"] of ["Spades"], constructed at reference 5. *)
Lemma fresh_card_accessors_witness :
  exists w',
    Card.new 5%nat cls_Card "ACE" "Spades" CardTester.w0 = (inr 5%nat, w') /\
    Card.isShowing 5%nat w' = (inr false, w') /\
    fst ((Card.flip 5%nat ;;; Card.suit 5%nat) w') = inr "spades".
Proof.
  eexists. split; [reflexivity|].
  destruct (fresh_card_accessors CardTester.w0 5%nat cls_Card "ACE" "Spades")
    as [_ H].
  destruct (H _ _ eq_refl) as (_ & _ & H1 & _ & _ & _ & _ & H2).
  exact (conj H1 H2).
Defined.

(** ** The suit setter *)

(** X12.  The setter compares exactly where the constructor ignores case: a
    spelling of a canonical suit that is not lower case is accepted by the
    constructor, which stores it in lower case, and refused by the setter
    with [ValueError], the card keeping its suit. *)
Theorem setter_is_case_sensitive
    (w : world) (self : loc) (cls : class) (n s : string) :
  n ∈ Card.names ->
  Str.lower s ∈ Card.suits ->
  s <> Str.lower s ->
  (exists o, Card.__init__ cls n s = inr o /\ __suit o = Str.lower s) /\
  (exists msg, Card.suit_setter self s w = (inl (ValueError msg), w)).
Proof.
  intros Hn Hs Hne. split.
  - destruct (init_cases cls n s)
      as [(n' & sn & rk & hv & sv & E & _) | (msg & _ & NV)].
    + eexists. split; [exact E | reflexivity].
    + exfalso. apply NV. split; [|exact Hs].
      left. rewrite (names_lower n Hn). exact Hn.
  - rewrite suit_setter_run, contains_false; [eexists; reflexivity|].
    intros Hin. apply Hne. symmetry. apply suits_lower. exact Hin.
Qed.

(** ["Spades"] builds a card of spades and is refused by the setter. *)
Lemma setter_is_case_sensitive_witness :
  (exists o, Card.__init__ cls_Card "king" "Spades" = inr o /\
             __suit o = "spades") /\
  (exists msg, Card.suit_setter 0%nat "Spades" Examples.both_up
               = (inl (ValueError msg), Examples.both_up)).
Proof.
  apply (setter_is_case_sensitive Examples.both_up 0%nat cls_Card
           "king" "Spades").
  - apply (bool_decide_eq_true_1 _). reflexivity.
  - apply (bool_decide_eq_true_1 _). reflexivity.
  - discriminate.
Defined.



(** ** Rendering in reachable worlds *)

(** No rendering of a card begins like the placeholder. *)
Lemma rendering_not_placeholder (i : nat) (nm sn glyph st : string) :
  Card.names !! i = Some nm ->
  Card.shortNames !! i = Some sn ->
  sn +:+ glyph <> "[face down]" /\
  Str.capitalize nm +:+ " of " +:+ Str.capitalize st <> "[face down]".
Proof.
  intros Hn Hs.
  do 13 (try destruct i as [|i]); try discriminate Hn;
    injection Hn as <-; injection Hs as <-; split; discriminate.
Qed.

(** X14.  In a reachable world [str(card)] never raises and changes nothing, and
    the placeholder is unambiguous: the result is ["[face down]"] exactly
    when the card is face down and debug mode is off. *)
Theorem str_placeholder_unambiguous (w : world) (self : loc) :
  reachable w ->
  exists s,
    Card.__str__ self w = (inr s, w) /\
    (s = "[face down]" <->
       __isShowing (heap w self) = false /\ debugMode w = false).
Proof.
  intros R.
  destruct (well_formed_attributes _ (reachable_well_formed w R self))
    as (Hs & i & Hn & Hsn & _).
  destruct (glyph_of_suit _ Hs) as (j & glyph & _ & _ & Hg).
  destruct (rendering_not_placeholder i _ _ glyph (__suit (heap w self)) Hn Hsn)
    as [N1 N2].
  rewrite str_run, Hg.
  destruct (useUnicode w), (__isShowing (heap w self)), (debugMode w);
    cbn [negb andb]; eexists; (split; [reflexivity|]);
    split; try (intros [? ?]; discriminate); try (intros _; reflexivity);
    try (intros E; contradiction); intros _; split; reflexivity.
Qed.

(** With debug mode on, the face-down ace of spades is printed. *)
Lemma str_placeholder_unambiguous_witness :
  reachable Examples.hidden_debug /\
  exists s,
    Card.__str__ 0%nat Examples.hidden_debug = (inr s, Examples.hidden_debug) /\
    s <> "[face down]".
Proof.
  split; [exact hidden_debug_reachable|].
  destruct (str_placeholder_unambiguous Examples.hidden_debug 0%nat
              hidden_debug_reachable) as (s & E & [H _]).
  exists s. split; [exact E|].
  intros Hs. destruct (H Hs) as [_ D]. discriminate D.
Defined.
